(** * cab.py: toggle-style background audio recorder

    A shallow embedding of [cab.py].  One invocation of the script either
    starts a capture session (spawning [parec], writing [_info.json]) or,
    when [pgrep] reports a running capture process, stops it, converts the
    raw stream with [ffmpeg] and removes the session files.

    The script talks to the outside world through the file system, the
    process table and the programs [pgrep], [parec], [ffmpeg] and
    [notify-send].  Those are modelled as follows.
    - The two files the script owns, [_raw_audio.raw] and [_info.json], are
      the fields [raw_file] and [info_file] of the mutable [state], next to
      the process table [procs] and the module globals [args] and [PID];
      every other effect (notifications, log records, signals, launched
      programs) is appended to [trace].  The running script is an entry of
      the process table like any other, marked [proc_is_self]; a signal is
      recorded when it is sent, and what the receiving process does with it
      is modelled only for the script itself.
    - [_info.json] is held as what [json.load] makes of it ([document]), the
      [.env] file as what [dotenv_values] makes of it.  Python dictionaries
      are lists of items in iteration order.
    - What the script only reads (the [.env] file, the clock, the home
      directory, whether [parec], [ffmpeg] and [notify-send] can be
      executed, how [ffmpeg] exits) is the read-only [host] record.
    - An exception keeps the effects performed before it was raised, so the
      monad returns the state in both outcomes.
    - Failures the script has no control over and that no statement below is
      about (a script directory that cannot be written, a process of another
      user, a missing [pgrep]) are not modelled. *)

From Stdlib Require Import List String Ascii ZArith Lia Bool DecimalString.
From Stdlib Require DecimalPos.
Import ListNotations.
Open Scope string_scope.
Open Scope Z_scope.

(** ** Strings *)

Module Str.

(** [str.lower()] on the ASCII letters.  The keys the script recognises
    ([file_name], [destination], [format], [env], [input], [pid]) contain
    no letter that a non-ASCII character lowers to, so for deciding whether
    a key is recognised the ASCII mapping is exact. *)
Definition lower_ascii (c : ascii) : ascii :=
  let n := nat_of_ascii c in
  if (Nat.leb 65 n && Nat.leb n 90)%bool then ascii_of_nat (n + 32) else c.

Fixpoint lower (s : string) : string :=
  match s with
  | EmptyString => EmptyString
  | String c r => String (lower_ascii c) (lower r)
  end.

Definition newline : ascii := ascii_of_nat 10.

(** [s.replace("\n", "")] *)
Fixpoint remove_newlines (s : string) : string :=
  match s with
  | EmptyString => EmptyString
  | String c r =>
      if Ascii.eqb c newline then remove_newlines r
      else String c (remove_newlines r)
  end.

(** [pat in s] for strings: some suffix of [s] starts with [pat]. *)
Fixpoint contains (pat s : string) : bool :=
  (String.prefix pat s ||
   match s with
   | EmptyString => false
   | String _ r => contains pat r
   end)%bool.

(** [s.split("/")] *)
Fixpoint split_slash (s : string) : list string :=
  match s with
  | EmptyString => [EmptyString]
  | String c r =>
      if Ascii.eqb c "/" then EmptyString :: split_slash r
      else match split_slash r with
           | h :: t => String c h :: t
           | [] => [String c EmptyString]
           end
  end.

(** Decimal rendering of an integer, as [str(n)] and [f"{n}"] give it. *)
Definition of_Z (z : Z) : string := NilZero.string_of_int (Z.to_int z).

(** [int(s)] for a non-empty string of decimal digits, the only strings the
    script passes to [int]; anything else is [None] (Python's
    [ValueError]). *)
Definition to_Z (s : string) : option Z :=
  option_map Z.of_uint (NilZero.uint_of_string s).

End Str.

(** ** Paths ([pathlib.PurePosixPath]) *)

Module Path.

Record t := mk { root : string; parts : list string }.

Definition keep (p : string) : bool :=
  negb (String.eqb p "" || String.eqb p ".").

(** [Path(s)]: the root is ["/"], or ["//"] for exactly two leading
    slashes; empty and ["."] components are dropped. *)
Definition of_string (s : string) : t :=
  {| root := if (String.prefix "//" s && negb (String.prefix "///" s))%bool
             then "//"
             else if String.prefix "/" s then "/" else "";
     parts := filter keep (Str.split_slash s) |}.

(** [a / b]: an absolute right operand replaces the left one. *)
Definition truediv (a b : t) : t :=
  if String.eqb (root b) "" then
    {| root := root a; parts := parts a ++ parts b |}
  else b.

(** [str(p)] *)
Definition to_string (p : t) : string :=
  match parts p with
  | [] => if String.eqb (root p) "" then "." else root p
  | ps => root p ++ String.concat "/" ps
  end.

End Path.

(** ** Python values held by the configuration *)

(** A configuration field holds whatever [argparse], [dotenv_values] or
    [json.load] put there: [None], a boolean, an integer, a string, or the
    [Path] that [main] assigns to [destination].  (JSON numbers with a
    fraction, arrays and objects as member values are outside the model.) *)
Inductive value :=
| VNone
| VBool (b : bool)
| VInt (z : Z)
| VStr (s : string)
| VPath (p : Path.t).

(** Python truth value, as tested by [not x] and [x or y]. *)
Definition truthy (v : value) : bool :=
  match v with
  | VNone => false
  | VBool b => b
  | VInt z => negb (z =? 0)
  | VStr s => negb (String.eqb s "")
  | VPath _ => true
  end.

(** [str(v)] *)
Definition py_str (v : value) : string :=
  match v with
  | VNone => "None"
  | VBool true => "True"
  | VBool false => "False"
  | VInt z => Str.of_Z z
  | VStr s => s
  | VPath p => Path.to_string p
  end.

(** [Path(v)]: defined on strings and paths, [TypeError] (here [None])
    otherwise. *)
Definition as_path (v : value) : option Path.t :=
  match v with
  | VStr s => Some (Path.of_string s)
  | VPath p => Some p
  | _ => None
  end.

(** What [subprocess] accepts as an element of an argument vector. *)
Definition fsencode (v : value) : option string :=
  match v with
  | VStr s => Some s
  | VPath p => Some (Path.to_string p)
  | _ => None
  end.

Fixpoint fsencode_all (argv : list value) : option (list string) :=
  match argv with
  | [] => Some []
  | v :: r =>
      match fsencode v, fsencode_all r with
      | Some s, Some rs => Some (s :: rs)
      | _, _ => None
      end
  end.

(** [json.dump] accepts every value of the model except a [Path]. *)
Definition json_serializable (v : value) : bool :=
  match v with
  | VPath _ => false
  | _ => true
  end.

(** ** The command line and the [args] namespace *)

(** The flags of one invocation; [None] is a flag that was not passed. *)
Record cli := {
  cli_file_name : option string;
  cli_destination : option string;
  cli_format : option string;
  cli_env : bool;
  cli_input : option string
}.

(** The [argparse.Namespace] bound to the global [args]. *)
Record Namespace := {
  file_name : value;
  destination : value;
  format : value;
  env : value;
  input : value
}.

Definition of_flag (o : option string) : value :=
  match o with
  | Some s => VStr s
  | None => VNone
  end.

(** [parser.parse_args()]: only [--format] has a default. *)
Definition parser_parse_args (c : cli) : Namespace :=
  {| file_name := of_flag (cli_file_name c);
     destination := of_flag (cli_destination c);
     format := match cli_format c with
               | Some f => VStr f
               | None => VStr "mp3"
               end;
     env := VBool (cli_env c);
     input := of_flag (cli_input c) |}.

(** [vars(args)], in the order the arguments were declared. *)
Definition vars (a : Namespace) : list (string * value) :=
  [("file_name", file_name a); ("destination", destination a);
   ("format", format a); ("env", env a); ("input", input a)].

Definition keys {A} (d : list (string * A)) : list string := map fst d.

(** [key in keys] *)
Definition mem (key : string) (ks : list string) : bool :=
  existsb (String.eqb key) ks.

(** [getattr(args, key)] for a key of [vars(args)]. *)
Definition getattr (a : Namespace) (key : string) : value :=
  if String.eqb key "file_name" then file_name a
  else if String.eqb key "destination" then destination a
  else if String.eqb key "format" then format a
  else if String.eqb key "env" then env a
  else if String.eqb key "input" then input a
  else VNone.

(** [setattr(args, key, v)] for a key of [vars(args)]. *)
Definition setattr (a : Namespace) (key : string) (v : value) : Namespace :=
  if String.eqb key "file_name" then
    {| file_name := v; destination := destination a; format := format a;
       env := env a; input := input a |}
  else if String.eqb key "destination" then
    {| file_name := file_name a; destination := v; format := format a;
       env := env a; input := input a |}
  else if String.eqb key "format" then
    {| file_name := file_name a; destination := destination a; format := v;
       env := env a; input := input a |}
  else if String.eqb key "env" then
    {| file_name := file_name a; destination := destination a;
       format := format a; env := v; input := input a |}
  else if String.eqb key "input" then
    {| file_name := file_name a; destination := destination a;
       format := format a; env := env a; input := v |}
  else a.

(** ** The machine the script runs on *)

(** Exceptions the script can meet.  [Terminated] is not a Python exception:
    it stands for the interpreter being ended by a [SIGTERM] it sent to
    itself, after which no statement runs and which no [except] clause
    catches. *)
Inductive exn :=
| JSONDecodeError
| AttributeError
| TypeError
| ValueError
| OverflowError
| ProcessLookupError
| FileNotFoundError
| CalledProcessError (returncode : Z)
| Terminated.

(** [_info.json] as [json.load] sees it: text that does not parse, an object
    (its members in order), or any other document, of which the script only
    uses the truth value. *)
Inductive document :=
| Garbled
| Object (items : list (string * value))
| NonObject (truth : bool).

(** An entry of the process table: identifier, command line, process group,
    and whether the entry is the running script itself (which is in the
    table like every other process, and is reported by [pgrep -f parec] when
    its own command line contains [parec]). *)
Record process := {
  proc_pid : Z;
  proc_cmdline : string;
  proc_pgid : Z;
  proc_is_self : bool
}.

Inductive level := INFO | WARNING | ERROR.

Inductive message :=
| Text (s : string)
| WithExn (s : string) (e : exn).

(** Effects visible outside the script, oldest first. *)
Inductive event :=
| Notify (title msg : string)
| Log (lvl : level) (msg : message)
| Spawned (pid : Z) (argv : list string)
| Signalled (pid : Z)
| Ran (argv : list string) (returncode : Z).

(** How [subprocess.run] of the encoder ends. *)
Inductive encoder_outcome :=
| Exits (returncode : Z)
| CannotRun.

(** What an invocation reads but does not change. *)
Record host := {
  dotenv_values : string -> list (string * option string);
  now : string;
  home : string;
  script_dir : string;
  parec_installed : bool;
  fresh_pid : Z;
  getpgrp : Z;
  ffmpeg : encoder_outcome;
  notify_installed : bool
}.

(** The module globals [args] and [PID], the two session files, the process
    table and the effects so far. *)
Record state := {
  args : Namespace;
  PID : value;
  raw_file : option (list Byte.byte);
  info_file : option document;
  procs : list process;
  trace : list event
}.

Definition with_args (f : Namespace -> Namespace) (s : state) : state :=
  {| args := f (args s); PID := PID s; raw_file := raw_file s;
     info_file := info_file s; procs := procs s; trace := trace s |}.

Definition with_PID (v : value) (s : state) : state :=
  {| args := args s; PID := v; raw_file := raw_file s;
     info_file := info_file s; procs := procs s; trace := trace s |}.

Definition with_raw (r : option (list Byte.byte)) (s : state) : state :=
  {| args := args s; PID := PID s; raw_file := r;
     info_file := info_file s; procs := procs s; trace := trace s |}.

Definition with_info (i : option document) (s : state) : state :=
  {| args := args s; PID := PID s; raw_file := raw_file s;
     info_file := i; procs := procs s; trace := trace s |}.

Definition with_procs (p : list process) (s : state) : state :=
  {| args := args s; PID := PID s; raw_file := raw_file s;
     info_file := info_file s; procs := p; trace := trace s |}.

Definition emit (e : event) (s : state) : state :=
  {| args := args s; PID := PID s; raw_file := raw_file s;
     info_file := info_file s; procs := procs s; trace := trace s ++ [e] |}.

(** ** State and exception monad *)

Inductive result (A : Type) :=
| Ok (a : A)
| Raise (e : exn).
Arguments Ok {A} a.
Arguments Raise {A} e.

Definition M (A : Type) : Type := state -> result A * state.

Definition ret {A} (a : A) : M A := fun s => (Ok a, s).

Definition bind {A B} (c : M A) (k : A -> M B) : M B :=
  fun s =>
    match c s with
    | (Ok a, s') => k a s'
    | (Raise e, s') => (Raise e, s')
    end.

Definition raise {A} (e : exn) : M A := fun s => (Raise e, s).

Definition get : M state := fun s => (Ok s, s).

Definition modify (f : state -> state) : M unit := fun s => (Ok tt, f s).

(** [try: c  except <handles> as e: h e] *)
Definition try_except {A} (c : M A) (handles : exn -> bool) (h : exn -> M A)
  : M A :=
  fun s =>
    match c s with
    | (Ok a, s') => (Ok a, s')
    | (Raise e, s') => if handles e then h e s' else (Raise e, s')
    end.

Declare Scope py_scope.
Delimit Scope py_scope with py.
Notation "x <- c ;; k" := (bind c (fun x => k))
  (at level 100, c at next level, right associativity) : py_scope.
Notation "c ;; k" := (bind c (fun _ => k))
  (at level 100, right associativity) : py_scope.
Open Scope py_scope.

(** [for x in xs: body x] *)
Fixpoint for_each {A} (xs : list A) (body : A -> M unit) : M unit :=
  match xs with
  | [] => ret tt
  | x :: r => body x ;; for_each r body
  end.

Definition is_ProcessLookupError (e : exn) : bool :=
  match e with ProcessLookupError => true | _ => false end.

Definition is_CalledProcessError (e : exn) : bool :=
  match e with CalledProcessError _ => true | _ => false end.

(** [except Exception]: every exception of the model; a process that has
    been terminated runs no handler. *)
Definition is_Exception (e : exn) : bool :=
  match e with Terminated => false | _ => true end.

(** ** The script *)

Section Script.

Variable os : host.

(** [RAW_FILE_NAME = SCRIPT_DIR / Path("_raw_audio.raw")] *)
Definition RAW_FILE_NAME : Path.t :=
  Path.truediv (Path.of_string (script_dir os))
               (Path.of_string "_raw_audio.raw").

(** [INFO_FILE = SCRIPT_DIR / Path("_info.json")] *)
Definition INFO_FILE : Path.t :=
  Path.truediv (Path.of_string (script_dir os))
               (Path.of_string "_info.json").

(** *** Primitives of the standard library *)

Definition logger (lvl : level) (msg : message) : M unit :=
  modify (emit (Log lvl msg)).

(** [os.remove(RAW_FILE_NAME)] *)
Definition os_remove_raw : M unit :=
  s <- get ;;
  match raw_file s with
  | Some _ => modify (with_raw None)
  | None => raise FileNotFoundError
  end.

(** [os.remove(INFO_FILE)] *)
Definition os_remove_info : M unit :=
  s <- get ;;
  match info_file s with
  | Some _ => modify (with_info None)
  | None => raise FileNotFoundError
  end.

Definition INT_MAX : Z := 2147483647.
Definition INT_MIN : Z := -2147483648.

Definition has_pid (pid : Z) (ps : list process) : bool :=
  existsb (fun p => proc_pid p =? pid) ps.

(** The entries [os.kill(pid, ...)] addresses when [pid] is not 0, as in
    kill(2): a positive [pid] is the process of that identifier; [-1] is
    every process except [init] and the caller; any other negative [pid] is
    the process group [-pid]. *)
Definition addressed (pid : Z) (ps : list process) : list process :=
  if 0 <? pid then filter (fun p => proc_pid p =? pid) ps
  else if pid =? -1 then
    filter (fun p => ((1 <? proc_pid p) && negb (proc_is_self p))%bool) ps
  else filter (fun p => proc_pgid p =? - pid) ps.

(** Is the running script among the processes the call addresses? *)
Definition hits_self (pid : Z) (ps : list process) : bool :=
  existsb proc_is_self (addressed pid ps).

(** [os.kill(pid, signal.SIGTERM)].  A [pid] that does not fit the C type
    is refused before the system call.  The call fails ([ESRCH],
    [ProcessLookupError]) when it addresses no process.  Otherwise the
    signal is sent, which the trace records; [pid = 0] is the caller's own
    process group.  When the caller is among the addressed processes the
    signal ends it before the call returns.  When the other processes exit
    is up to them: the call returns once the signal is queued, and the table
    is left as it is. *)
Definition os_kill (pid : Z) : M unit :=
  if ((pid <? INT_MIN) || (INT_MAX <? pid))%bool then raise OverflowError
  else if pid =? 0 then
    modify (emit (Signalled pid)) ;;
    raise Terminated
  else
    s <- get ;;
    match addressed pid (procs s) with
    | [] => raise ProcessLookupError
    | _ :: _ =>
        modify (emit (Signalled pid)) ;;
        if hits_self pid (procs s) then raise Terminated else ret tt
    end.

(** The standard output of [pgrep -f pat]: the identifier of every process
    whose command line contains [pat], one per line, in table order. *)
Definition pgrep (pat : string) (ps : list process) : string :=
  String.concat ""
    (map (fun p => Str.of_Z (proc_pid p) ++ String Str.newline "")
         (filter (fun p => Str.contains pat (proc_cmdline p)) ps)).

(** *** [add_argument] *)

Definition add_argument (arg : string) (v : value)
           (expected_keys : list string) : M unit :=
  let arg := Str.lower arg in
  (if mem arg expected_keys
   then modify (with_args (fun a => setattr a arg v))
   else ret tt) ;;
  if String.eqb arg "pid" then modify (with_PID v) else ret tt.

(** *** [save_session_info]

    [open(INFO_FILE, "w")] empties the file before [json.dump] writes to
    it; a member that [json.dump] refuses leaves unfinished text behind. *)
Definition save_session_info (pid : Z) : M unit :=
  modify (with_info (Some Garbled)) ;;
  s <- get ;;
  let a := args s in
  if (json_serializable (file_name a) && json_serializable (format a))%bool
  then
    modify (with_info
              (Some (Object [("pid", VInt pid);
                             ("file_name", file_name a);
                             ("destination", VStr (py_str (destination a)));
                             ("format", format a)])))
  else raise TypeError.

(** *** [load_session_info] *)

Definition load_session_info : M (option document) :=
  s <- get ;;
  match info_file s with
  | None => ret None
  | Some Garbled => raise JSONDecodeError
  | Some d => ret (Some d)
  end.

(** *** [parse_args]

    [session_info.items()] exists only on an object: a document of another
    kind that is true raises [AttributeError], one that is false is
    replaced by [{}]. *)
Definition parse_args (name : string) (is_env : bool) : M unit :=
  s <- get ;;
  let args_collection := keys (vars (args s)) in
  if (is_env && truthy (env (args s)))%bool then
    for_each (dotenv_values os name)
             (fun kv => add_argument (fst kv) (of_flag (snd kv))
                                     args_collection)
  else
    loaded <- load_session_info ;;
    session_info <-
      match loaded with
      | None => ret []
      | Some (Object items) => ret items
      | Some (NonObject true) => raise AttributeError
      | Some _ => ret []
      end ;;
    for_each session_info
             (fun kv => add_argument (fst kv) (snd kv) args_collection).

(** *** [check_process_exists] *)

Definition check_process_exists : M string :=
  s <- get ;;
  let pid := pgrep "parec" (procs s) in
  ret (Str.remove_newlines pid).

(** *** [show_notification] *)

Definition show_notification (title msg : string) : M unit :=
  if notify_installed os then modify (emit (Notify title msg))
  else raise FileNotFoundError.

(** *** [convert_audio] *)

Definition convert_audio_argv (file_name : value) : list value :=
  [VStr "ffmpeg"; VStr "-f"; VStr "s16le"; VStr "-ar"; VStr "48000";
   VStr "-ac"; VStr "2"; VStr "-i"; VStr (Path.to_string RAW_FILE_NAME);
   file_name].

(** [subprocess.run(argv, check=True)] of the encoder. *)
Definition subprocess_run_check (argv : list value) : M unit :=
  match fsencode_all argv with
  | None => raise TypeError
  | Some cmd =>
      match ffmpeg os with
      | CannotRun => raise FileNotFoundError
      | Exits rc =>
          modify (emit (Ran cmd rc)) ;;
          if rc =? 0 then ret tt else raise (CalledProcessError rc)
      end
  end.

Definition convert_audio (file_name : value) : M unit :=
  let file_name :=
    match file_name with
    | VPath p => VStr (Path.to_string p)
    | v => v
    end in
  subprocess_run_check (convert_audio_argv file_name).

(** *** [start_recording] *)

Definition parec_argv (input_device : value) : list value :=
  [VStr "parec"; VStr "-d"; input_device; VStr "--format=s16le";
   VStr "--rate=48000"; VStr "--channels=2"].

(** [subprocess.Popen(argv, stdout=raw_file)] of the capture program: the
    child stays in the process group of the script. *)
Definition popen_parec (argv : list value) : M Z :=
  match fsencode_all argv with
  | None => raise TypeError
  | Some cmd =>
      if parec_installed os then
        s <- get ;;
        let p := {| proc_pid := fresh_pid os;
                    proc_cmdline := String.concat " " cmd;
                    proc_pgid := getpgrp os;
                    proc_is_self := false |} in
        modify (with_procs (procs s ++ [p])) ;;
        modify (emit (Spawned (fresh_pid os) cmd)) ;;
        ret (fresh_pid os)
      else raise FileNotFoundError
  end.

Definition start_recording (input_device : value) : M Z :=
  modify (with_raw (Some [])) ;;
  pid <- popen_parec (parec_argv input_device) ;;
  show_notification "Recording Started" "Capturing audio..." ;;
  ret pid.

(** *** [stop_recording] *)

Definition stop_recording (pid : Z) : M unit :=
  try_except
    (os_kill pid ;;
     logger INFO (Text ("Recording stopped (PID " ++ Str.of_Z pid ++ ")")))
    is_ProcessLookupError
    (fun _ =>
       logger ERROR
              (Text ("Process with PID " ++ Str.of_Z pid ++ " not found"))).

(** *** [clean_session] *)

Definition clean_session : M unit :=
  try_except
    (os_remove_raw ;; os_remove_info)
    is_Exception
    (fun e => logger WARNING (WithExn "Failed to clean session: " e)).

(** *** [main] *)

Definition start_branch : M unit :=
  s <- get ;;
  (if truthy (file_name (args s)) then ret tt
   else modify (with_args (fun a =>
          setattr a "file_name" (VStr ("audio_" ++ now os ++ ".mp3"))))) ;;
  s <- get ;;
  (if truthy (destination (args s)) then ret tt
   else modify (with_args (fun a =>
          setattr a "destination" (VPath (Path.of_string (home os)))))) ;;
  s <- get ;;
  pid_number <- start_recording (input (args s)) ;;
  save_session_info pid_number.

Definition stop_branch (pid : string) : M unit :=
  parse_args (Path.to_string INFO_FILE) false ;;
  n <- match Str.to_Z pid with
       | Some n => ret n
       | None => raise ValueError
       end ;;
  stop_recording n ;;
  s <- get ;;
  new_name <-
    match as_path (destination (args s)), as_path (file_name (args s)) with
    | Some d, Some f => ret (Path.truediv d f)
    | _, _ => raise TypeError
    end ;;
  returned <-
    try_except
      (convert_audio (VPath new_name) ;; ret false)
      is_CalledProcessError
      (fun e =>
         logger ERROR (WithExn "Failed to convert audio: " e) ;;
         show_notification "Recording stopped" "Failed to convert audio" ;;
         clean_session ;;
         ret true) ;;
  if returned : bool then ret tt
  else
    show_notification "Recording stopped"
                      ("Audio saved to " ++ Path.to_string new_name) ;;
    clean_session.

Definition main : M unit :=
  parse_args ".env" true ;;
  pid <- check_process_exists ;;
  if String.eqb pid "" then start_branch else stop_branch pid.

End Script.

(** ** Invocations *)

(** The state a fresh interpreter starts [main] in: [args] as parsed from the
    command line, [PID = None], the files and processes found on the
    machine. *)
Definition boot (c : cli) (raw : option (list Byte.byte))
           (info : option document) (ps : list process) : state :=
  {| args := parser_parse_args c; PID := VNone; raw_file := raw;
     info_file := info; procs := ps; trace := [] |}.

(** The same host with another [.env] file. *)
Definition with_dotenv (f : string -> list (string * option string))
           (os : host) : host :=
  {| dotenv_values := f; now := now os; home := home os;
     script_dir := script_dir os; parec_installed := parec_installed os;
     fresh_pid := fresh_pid os; getpgrp := getpgrp os; ffmpeg := ffmpeg os;
     notify_installed := notify_installed os |}.

(** The probe as [main] branches on it: is a capture process found? *)
Definition probe (ps : list process) : string :=
  Str.remove_newlines (pgrep "parec" ps).

(** The output files the encoder was run on, oldest first. *)
Fixpoint encoded_to (t : list event) : list string :=
  match t with
  | [] => []
  | Ran argv _ :: r => last argv "" :: encoded_to r
  | _ :: r => encoded_to r
  end.

(** ** Pure reading of the configuration merge *)

(** One [add_argument] call on the namespace. *)
Definition assign (ks : list string) (a : Namespace) (k : string) (v : value)
  : Namespace :=
  if mem (Str.lower k) ks then setattr a (Str.lower k) v else a.

(** One [add_argument] call on the global [PID]. *)
Definition assign_pid (p : value) (k : string) (v : value) : value :=
  if String.eqb (Str.lower k) "pid" then v else p.

Section Overlay.

Context {A : Type} (g : A -> value) (ks : list string).

Fixpoint overlay (items : list (string * A)) (a : Namespace) : Namespace :=
  match items with
  | [] => a
  | kv :: r => overlay r (assign ks a (fst kv) (g (snd kv)))
  end.

Fixpoint overlay_pid (items : list (string * A)) (p : value) : value :=
  match items with
  | [] => p
  | kv :: r => overlay_pid r (assign_pid p (fst kv) (g (snd kv)))
  end.

(** The value the merge leaves in field [key]: that of the last item whose
    lowered name is [key]. *)
Fixpoint last_binding (key : string) (items : list (string * A))
  : option value :=
  match items with
  | [] => None
  | kv :: r =>
      match last_binding key r with
      | Some v => Some v
      | None =>
          if String.eqb (Str.lower (fst kv)) key then Some (g (snd kv))
          else None
      end
  end.

End Overlay.

Definition expected_keys : list string :=
  ["file_name"; "destination"; "format"; "env"; "input"].

(** The defaults [main] fills in on the start path. *)
Definition fill_defaults (os : host) (a : Namespace) : Namespace :=
  let a1 :=
    if truthy (file_name a) then a
    else setattr a "file_name" (VStr ("audio_" ++ now os ++ ".mp3")) in
  if truthy (destination a1) then a1
  else setattr a1 "destination" (VPath (Path.of_string (home os))).

(** ** Frames *)

(** [keeps R c]: whatever [c] does, and whether it returns or raises, the
    state it leaves is related by [R] to the one it started in. *)
Definition keeps {A} (R : state -> state -> Prop) (c : M A) : Prop :=
  forall s, R s (snd (c s)).

Definition same_args (s t : state) : Prop := args t = args s.

Definition same_files (s t : state) : Prop :=
  raw_file t = raw_file s /\ info_file t = info_file s.

(** [aborts c]: [c] always ends in an exception, with both session files as
    it found them. *)
Definition aborts {A} (c : M A) : Prop :=
  forall s, (exists e, fst (c s) = Raise e) /\ same_files s (snd (c s)).

(** ** Machines, command lines and records used in the examples *)

(** A host with every external program installed and an encoder that
    succeeds. *)
Definition studio : host :=
  {| dotenv_values := fun _ => [];
     now := "2024-05-01_10-00-00";
     home := "/home/u";
     script_dir := "/opt/cab";
     parec_installed := true;
     fresh_pid := 4242;
     getpgrp := 4100;
     ffmpeg := Exits 0;
     notify_installed := true |}.

(** [studio] with a [.env] file. *)
Definition env_host : host :=
  with_dotenv
    (fun _ => [("FILE_NAME", Some "e.mp3"); ("DESTINATION", Some "/tmp");
               ("INPUT", Some "mic9")])
    studio.

(** [studio] without [ffmpeg]. *)
Definition no_encoder : host :=
  {| dotenv_values := fun _ => [];
     now := "2024-05-01_10-00-00";
     home := "/home/u";
     script_dir := "/opt/cab";
     parec_installed := true;
     fresh_pid := 4242;
     getpgrp := 4100;
     ffmpeg := CannotRun;
     notify_installed := true |}.

(** [studio] with an [ffmpeg] that exits with status 1. *)
Definition failing_encoder : host :=
  {| dotenv_values := fun _ => [];
     now := "2024-05-01_10-00-00";
     home := "/home/u";
     script_dir := "/opt/cab";
     parec_installed := true;
     fresh_pid := 4242;
     getpgrp := 4100;
     ffmpeg := Exits 1;
     notify_installed := true |}.

(** [studio] without [parec]. *)
Definition no_parec : host :=
  {| dotenv_values := fun _ => [];
     now := "2024-05-01_10-00-00";
     home := "/home/u";
     script_dir := "/opt/cab";
     parec_installed := false;
     fresh_pid := 4242;
     getpgrp := 4100;
     ffmpeg := Exits 0;
     notify_installed := true |}.

Definition parec_4242 : process :=
  {| proc_pid := 4242;
     proc_cmdline := "parec -d mic0 --format=s16le --rate=48000 --channels=2";
     proc_pgid := 4100;
     proc_is_self := false |}.

Definition parec_123 : process :=
  {| proc_pid := 123; proc_cmdline := "parec -d mic0 --format=s16le";
     proc_pgid := 100; proc_is_self := false |}.

Definition parec_456 : process :=
  {| proc_pid := 456; proc_cmdline := "parec -d mic1 --format=s16le";
     proc_pgid := 400; proc_is_self := false |}.

Definition editor_77 : process :=
  {| proc_pid := 77; proc_cmdline := "vim notes.txt";
     proc_pgid := 77; proc_is_self := false |}.

Definition record_b : list (string * value) :=
  [("pid", VInt 4242); ("file_name", VStr "b.mp3");
   ("destination", VStr "/home/u"); ("format", VStr "mp3")].

Definition stale_record : list (string * value) :=
  [("pid", VInt 999); ("file_name", VStr "old.mp3");
   ("destination", VStr "/srv/old"); ("format", VStr "ogg")].

Definition no_flags : cli :=
  {| cli_file_name := None; cli_destination := None; cli_format := None;
     cli_env := false; cli_input := None |}.

Definition flags_a : cli :=
  {| cli_file_name := Some "a.mp3"; cli_destination := None;
     cli_format := None; cli_env := false; cli_input := Some "mic0" |}.

Definition flags_env : cli :=
  {| cli_file_name := None; cli_destination := None; cli_format := None;
     cli_env := true; cli_input := None |}.

Definition flags_new : cli :=
  {| cli_file_name := Some "new.mp3"; cli_destination := Some "/srv/new";
     cli_format := Some "wav"; cli_env := false; cli_input := Some "mic0" |}.

Definition flags_mic : cli :=
  {| cli_file_name := None; cli_destination := None; cli_format := None;
     cli_env := false; cli_input := Some "mic0" |}.

Definition flags_wav : cli :=
  {| cli_file_name := None; cli_destination := None;
     cli_format := Some "wav"; cli_env := false; cli_input := Some "mic0" |}.

(** ** Notions used by the further properties *)

(** The object [save_session_info] writes for the configuration [a]. *)
Definition saved_record (pid : Z) (a : Namespace) : list (string * value) :=
  [("pid", VInt pid); ("file_name", file_name a);
   ("destination", VStr (py_str (destination a))); ("format", format a)].

(** The command line [start_recording] launches for the device [dev]. *)
Definition capture_argv (dev : string) : list string :=
  ["parec"; "-d"; dev; "--format=s16le"; "--rate=48000"; "--channels=2"].

(** The entry the launched capture process has in the process table. *)
Definition capture_process (os : host) (dev : string) : process :=
  {| proc_pid := fresh_pid os;
     proc_cmdline := String.concat " " (capture_argv dev);
     proc_pgid := getpgrp os;
     proc_is_self := false |}.

(** The processes [pgrep -f parec] reports. *)
Definition matches (p : process) : bool :=
  Str.contains "parec" (proc_cmdline p).

(** A dictionary with every key lowered. *)
Definition lower_keys {A} (items : list (string * A)) : list (string * A) :=
  map (fun kv => (Str.lower (fst kv), snd kv)) items.

(** Two capture processes whose identifiers, glued, exceed a C [int]. *)
Definition parec_30000 : process :=
  {| proc_pid := 30000; proc_cmdline := "parec -d mic0";
     proc_pgid := 29000; proc_is_self := false |}.

Definition parec_40000 : process :=
  {| proc_pid := 40000; proc_cmdline := "parec -d mic1";
     proc_pgid := 39000; proc_is_self := false |}.

(** A command line whose file name contains [parec]. *)
Definition flags_parec : cli :=
  {| cli_file_name := Some "parec_test.mp3"; cli_destination := None;
     cli_format := None; cli_env := false; cli_input := Some "mic0" |}.

(** The running script, started with a file name that contains [parec]. *)
Definition script_5151 : process :=
  {| proc_pid := 5151;
     proc_cmdline := "python3 /opt/cab/cab.py --file_name parec_test.mp3";
     proc_pgid := 5100;
     proc_is_self := true |}.

(** [studio] without [notify-send]. *)
Definition no_notifier : host :=
  {| dotenv_values := fun _ => [];
     now := "2024-05-01_10-00-00";
     home := "/home/u";
     script_dir := "/opt/cab";
     parec_installed := true;
     fresh_pid := 4242;
     getpgrp := 4100;
     ffmpeg := Exits 0;
     notify_installed := false |}.

(** ** The configuration merge *)

Ltac string_cases :=
  repeat match goal with
         | |- context [String.eqb ?x ?y] =>
             destruct (String.eqb_spec x y); subst; simpl in *;
             try congruence
         end.

Lemma mem_expected_keys key :
  mem key expected_keys = true ->
  key = "file_name" \/ key = "destination" \/ key = "format" \/
  key = "env" \/ key = "input".
Proof.
  unfold mem, expected_keys. simpl.
  string_cases; auto 6.
Qed.

Lemma getattr_assign a k v key :
  mem key expected_keys = true ->
  getattr (assign expected_keys a k v) key =
  if String.eqb (Str.lower k) key then v else getattr a key.
Proof.
  intros Hkey. unfold assign. generalize (Str.lower k) as k'. intros k'.
  destruct (mem_expected_keys key Hkey) as [-> | [-> | [-> | [-> | ->]]]];
    unfold mem, expected_keys, setattr, getattr; simpl;
    string_cases; reflexivity.
Qed.

Lemma getattr_overlay {A} (g : A -> value) items :
  forall a key,
    mem key expected_keys = true ->
    getattr (overlay g expected_keys items a) key =
    match last_binding g key items with
    | Some v => v
    | None => getattr a key
    end.
Proof.
  induction items as [| kv r IH]; intros a key Hkey; simpl.
  - reflexivity.
  - rewrite IH by assumption.
    destruct (last_binding g key r); [reflexivity |].
    rewrite getattr_assign by assumption.
    destruct (String.eqb (Str.lower (fst kv)) key); reflexivity.
Qed.

Lemma add_argument_run k v ks s :
  add_argument k v ks s =
  (Ok tt, with_PID (assign_pid (PID s) k v)
                   (with_args (fun a => assign ks a k v) s)).
Proof.
  unfold add_argument, assign, assign_pid, bind, modify, ret.
  destruct (mem (Str.lower k) ks), (String.eqb (Str.lower k) "pid");
    destruct s; reflexivity.
Qed.

Lemma for_each_add_argument {A} (g : A -> value) ks items :
  forall s,
    for_each items (fun kv => add_argument (fst kv) (g (snd kv)) ks) s =
    (Ok tt, with_PID (overlay_pid g items (PID s))
                     (with_args (overlay g ks items) s)).
Proof.
  induction items as [| kv r IH]; intros s; simpl.
  - destruct s; reflexivity.
  - unfold bind. rewrite add_argument_run, IH.
    destruct s; reflexivity.
Qed.

(** [parse_args] with the overlay enabled reads the [.env] file only. *)
Lemma parse_args_dotenv os name s :
  truthy (env (args s)) = true ->
  parse_args os name true s =
  (Ok tt, with_PID (overlay_pid of_flag (dotenv_values os name) (PID s))
            (with_args (overlay of_flag expected_keys (dotenv_values os name))
                       s)).
Proof.
  intros Henv. unfold parse_args, bind, get. cbv beta iota.
  rewrite Henv. simpl andb. cbv iota. apply for_each_add_argument.
Qed.

(** [parse_args] on the session record: the four kinds of file. *)
Lemma parse_args_object os name is_env s items :
  (is_env && truthy (env (args s)))%bool = false ->
  info_file s = Some (Object items) ->
  parse_args os name is_env s =
  (Ok tt, with_PID (overlay_pid (fun v => v) items (PID s))
            (with_args (overlay (fun v => v) expected_keys items) s)).
Proof.
  intros Hsel Hinfo.
  unfold parse_args, load_session_info, bind, get. cbv beta iota.
  rewrite Hsel, Hinfo. unfold ret at 1. cbv beta iota.
  apply (for_each_add_argument (fun v => v)).
Qed.

Lemma parse_args_garbled os name is_env s :
  (is_env && truthy (env (args s)))%bool = false ->
  info_file s = Some Garbled ->
  parse_args os name is_env s = (Raise JSONDecodeError, s).
Proof.
  intros Hsel Hinfo.
  unfold parse_args, load_session_info, bind, get. cbv beta iota.
  rewrite Hsel, Hinfo.
  reflexivity.
Qed.

Lemma parse_args_nonobject os name is_env s b :
  (is_env && truthy (env (args s)))%bool = false ->
  info_file s = Some (NonObject b) ->
  parse_args os name is_env s =
  (if b then Raise AttributeError else Ok tt, s).
Proof.
  intros Hsel Hinfo.
  unfold parse_args, load_session_info, bind, get. cbv beta iota.
  rewrite Hsel, Hinfo.
  destruct b; reflexivity.
Qed.

Lemma parse_args_absent os name is_env s :
  (is_env && truthy (env (args s)))%bool = false ->
  info_file s = None ->
  parse_args os name is_env s = (Ok tt, s).
Proof.
  intros Hsel Hinfo.
  unfold parse_args, load_session_info, bind, get. cbv beta iota.
  rewrite Hsel, Hinfo.
  reflexivity.
Qed.

(** [parse_args] touches the globals only: files, processes and trace are
    left alone, whether it returns or raises. *)
Lemma parse_args_frame os name is_env s :
  let s' := snd (parse_args os name is_env s) in
  raw_file s' = raw_file s /\ info_file s' = info_file s /\
  procs s' = procs s /\ trace s' = trace s.
Proof.
  destruct ((is_env && truthy (env (args s)))%bool) eqn:Hsel.
  - apply andb_prop in Hsel as [-> Henv].
    rewrite parse_args_dotenv by assumption. simpl. auto.
  - destruct (info_file s) as [[| items | b] |] eqn:Hinfo.
    + rewrite parse_args_garbled by assumption. simpl. auto.
    + rewrite (parse_args_object os name is_env s items) by assumption.
      simpl. auto.
    + rewrite (parse_args_nonobject os name is_env s b) by assumption.
      simpl. auto.
    + rewrite parse_args_absent by assumption. simpl. auto.
Qed.

(** ** Monad laws *)

Lemma bind_get {B} (k : state -> M B) s : bind get k s = k s s.
Proof. reflexivity. Qed.

Lemma bind_ret {A B} (a : A) (k : A -> M B) s : bind (ret a) k s = k a s.
Proof. reflexivity. Qed.

Lemma bind_modify {B} f (k : unit -> M B) s : bind (modify f) k s = k tt (f s).
Proof. reflexivity. Qed.

Lemma bind_raise {A B} e (k : A -> M B) s :
  bind (raise e) k s = (Raise e, s).
Proof. reflexivity. Qed.

(** ** Frame rules *)

Section Frame.

Variable R : state -> state -> Prop.
Hypothesis R_refl : forall s, R s s.
Hypothesis R_trans : forall s t u, R s t -> R t u -> R s u.

Lemma keeps_ret {A} (a : A) : keeps R (ret a).
Proof. intros s. apply R_refl. Qed.

Lemma keeps_raise {A} (e : exn) : keeps R (@raise A e).
Proof. intros s. apply R_refl. Qed.

Lemma keeps_get : keeps R get.
Proof. intros s. apply R_refl. Qed.

Lemma keeps_modify f : (forall s, R s (f s)) -> keeps R (modify f).
Proof. intros H s. apply H. Qed.

Lemma keeps_bind {A B} (c : M A) (k : A -> M B) :
  keeps R c -> (forall a, keeps R (k a)) -> keeps R (bind c k).
Proof.
  intros Hc Hk s. unfold bind. specialize (Hc s).
  destruct (c s) as [[a | e] s']; simpl in *.
  - eapply R_trans; [exact Hc | apply Hk].
  - exact Hc.
Qed.

Lemma keeps_try {A} (c : M A) handles h :
  keeps R c -> (forall e, keeps R (h e)) -> keeps R (try_except c handles h).
Proof.
  intros Hc Hh s. unfold try_except. specialize (Hc s).
  destruct (c s) as [[a | e] s']; simpl in *.
  - exact Hc.
  - destruct (handles e); simpl.
    + eapply R_trans; [exact Hc | apply Hh].
    + exact Hc.
Qed.

Lemma keeps_for_each {A} (xs : list A) body :
  (forall x, keeps R (body x)) -> keeps R (for_each xs body).
Proof.
  intros Hb. induction xs as [| x r IH]; simpl.
  - apply keeps_ret.
  - apply keeps_bind; auto.
Qed.

End Frame.

Lemma same_args_refl s : same_args s s.
Proof. reflexivity. Qed.
Lemma same_args_trans s t u : same_args s t -> same_args t u -> same_args s u.
Proof. unfold same_args. congruence. Qed.
Lemma same_files_refl s : same_files s s.
Proof. split; reflexivity. Qed.
Lemma same_files_trans s t u :
  same_files s t -> same_files t u -> same_files s u.
Proof. unfold same_files. intros [] []. split; congruence. Qed.

(** Apply the structural frame rules as far as the shape of the command
    allows; what is left are calls of other functions. *)
Ltac frame_with Rrefl Rtrans :=
  repeat lazymatch goal with
         | |- keeps _ (ret _) => apply keeps_ret; exact Rrefl
         | |- keeps _ (raise _) => apply keeps_raise; exact Rrefl
         | |- keeps _ get => apply keeps_get; exact Rrefl
         | |- keeps _ (bind _ _) =>
             apply keeps_bind; [exact Rtrans | | intro]
         | |- keeps _ (try_except _ _ _) =>
             apply keeps_try; [exact Rtrans | | intro]
         | |- keeps _ (for_each _ _) =>
             apply keeps_for_each; [exact Rrefl | exact Rtrans | intro]
         | |- keeps _ (modify _) =>
             apply keeps_modify; intros []; first [reflexivity | split; reflexivity]
         | |- keeps _ (if ?b then _ else _) => destruct b
         | |- keeps _ (match ?x with _ => _ end) => destruct x
         end.

Ltac frame_args := frame_with same_args_refl same_args_trans.
Ltac frame_files := frame_with same_files_refl same_files_trans.

Lemma stop_recording_keeps_args pid : keeps same_args (stop_recording pid).
Proof. unfold stop_recording, os_kill, logger. frame_args. Qed.

Lemma stop_recording_keeps_files pid : keeps same_files (stop_recording pid).
Proof. unfold stop_recording, os_kill, logger. frame_files. Qed.

Lemma clean_session_keeps_args : keeps same_args clean_session.
Proof.
  unfold clean_session, os_remove_raw, os_remove_info, logger. frame_args.
Qed.

Lemma show_notification_keeps_args os title msg :
  keeps same_args (show_notification os title msg).
Proof. unfold show_notification. frame_args. Qed.

Lemma show_notification_keeps_files os title msg :
  keeps same_files (show_notification os title msg).
Proof. unfold show_notification. frame_files. Qed.

Lemma convert_audio_keeps_args os f : keeps same_args (convert_audio os f).
Proof. unfold convert_audio, subprocess_run_check. frame_args. Qed.

Lemma convert_audio_keeps_files os f : keeps same_files (convert_audio os f).
Proof. unfold convert_audio, subprocess_run_check. frame_files. Qed.

(** ** The two branches of [main] *)

Lemma main_run os s :
  main os s =
  match parse_args os ".env" true s with
  | (Ok _, s1) =>
      if String.eqb (probe (procs s1)) "" then start_branch os s1
      else stop_branch os (probe (procs s1)) s1
  | (Raise e, s1) => (Raise e, s1)
  end.
Proof.
  unfold main, check_process_exists, probe, bind, get, ret.
  destruct (parse_args os ".env" true s) as [[[] | e] s1]; [| reflexivity].
  cbv beta iota.
  destruct (String.eqb (Str.remove_newlines (pgrep "parec" (procs s1))) "");
    reflexivity.
Qed.

(** Once the stop branch has merged the session record, [args] is final. *)
Lemma stop_branch_args os pid s :
  args (snd (stop_branch os pid s)) =
  args (snd (parse_args os (Path.to_string (INFO_FILE os)) false s)).
Proof.
  unfold stop_branch. unfold bind at 1.
  destruct (parse_args os (Path.to_string (INFO_FILE os)) false s)
    as [[[] | e] s1]; simpl snd; [| reflexivity].
  match goal with
  | |- args (snd (?c s1)) = args s1 =>
      assert (H : keeps same_args c); [| exact (H s1)]
  end.
  frame_args;
    first [ apply stop_recording_keeps_args
          | apply convert_audio_keeps_args
          | apply show_notification_keeps_args
          | apply clean_session_keeps_args
          | unfold logger; frame_args ].
Qed.

(** The merge of a stored object is the same on both passes: applying it a
    second time changes nothing it has set. *)
Lemma last_binding_overlay_twice items a key :
  mem key expected_keys = true ->
  getattr (overlay (fun v => v) expected_keys items
                   (overlay (fun v => v) expected_keys items a)) key =
  getattr (overlay (fun v => v) expected_keys items a) key.
Proof.
  intros Hkey. rewrite !getattr_overlay by assumption.
  destruct (last_binding (fun v => v) key items); reflexivity.
Qed.

(** ** C1: configuration precedence on the stop path *)

(** C1, as stated, fails: with [--file_name a.mp3] on the command line and a
    session record naming [b.mp3], the stop path encodes to [b.mp3]. *)
Lemma explicit_flag_loses_to_record :
  let out :=
    encoded_to
      (trace (snd (main studio
                        (boot flags_a (Some []) (Some (Object record_b))
                              [parec_4242])))) in
  cli_file_name flags_a = Some "a.mp3" /\
  out = ["/home/u/b.mp3"] /\ out <> ["/home/u/a.mp3"].
Proof.
  vm_compute. repeat split. discriminate.
Qed.

(** C1, amended: on the stop path (a capture process is found) every
    configuration field that the persisted session record holds takes the
    record's value, whatever was passed on the command line; a field the
    record lacks keeps its command-line value (stated for invocations
    without [--env]). *)
Theorem stop_path_record_overrides_flags os c raw items ps key :
  mem key expected_keys = true ->
  probe ps <> "" ->
  let final :=
    args (snd (main os (boot c raw (Some (Object items)) ps))) in
  match last_binding (fun v => v) key items with
  | Some v => getattr final key = v
  | None =>
      cli_env c = false ->
      getattr final key = getattr (parser_parse_args c) key
  end.
Proof.
  intros Hkey Hprobe final. subst final. rewrite main_run.
  set (s0 := boot c raw (Some (Object items)) ps).
  destruct (cli_env c) eqn:Henv.
  - rewrite parse_args_dotenv by (simpl; exact Henv).
    simpl procs. destruct (String.eqb_spec (probe ps) ""); [contradiction |].
    rewrite stop_branch_args.
    rewrite (parse_args_object _ _ false _ items) by reflexivity.
    simpl. rewrite getattr_overlay by assumption.
    destruct (last_binding (fun v => v) key items);
      [reflexivity | discriminate].
  - rewrite (parse_args_object _ _ true _ items)
      by (try reflexivity; simpl; rewrite Henv; reflexivity).
    simpl procs. destruct (String.eqb_spec (probe ps) ""); [contradiction |].
    rewrite stop_branch_args.
    rewrite (parse_args_object _ _ false _ items) by reflexivity.
    simpl. rewrite last_binding_overlay_twice by assumption.
    rewrite getattr_overlay by assumption.
    destruct (last_binding (fun v => v) key items); reflexivity.
Qed.

Lemma stop_path_record_overrides_flags_witness :
  let final :=
    args (snd (main studio
                    (boot flags_a (Some []) (Some (Object record_b))
                          [parec_4242]))) in
  getattr final "file_name" = VStr "b.mp3" /\
  (cli_env flags_a = false -> getattr final "input" = VStr "mic0").
Proof.
  split.
  - apply (stop_path_record_overrides_flags
             studio flags_a (Some []) record_b [parec_4242] "file_name").
    + reflexivity.
    + vm_compute. discriminate.
  - apply (stop_path_record_overrides_flags
             studio flags_a (Some []) record_b [parec_4242] "input").
    + reflexivity.
    + vm_compute. discriminate.
Defined.

(** ** C2: cleanup after a failed conversion *)

Lemma aborts_raise {A} e : aborts (@raise A e).
Proof. intros s. split; [eexists; reflexivity | apply same_files_refl]. Qed.

Lemma aborts_bind {A B} (c : M A) (k : A -> M B) :
  keeps same_files c -> (forall a, aborts (k a)) -> aborts (bind c k).
Proof.
  intros Hc Hk s. unfold bind. specialize (Hc s).
  destruct (c s) as [[a | e] s']; simpl in *.
  - destruct (Hk a s') as [He Hs]. split; [exact He |].
    eapply same_files_trans; eassumption.
  - split; [eexists; reflexivity | exact Hc].
Qed.

Lemma parse_args_keeps_files os name is_env :
  keeps same_files (parse_args os name is_env).
Proof.
  intros s. destruct (parse_args_frame os name is_env s) as (Hr & Hi & _).
  split; assumption.
Qed.

Lemma convert_audio_cannot_run os p :
  ffmpeg os = CannotRun ->
  convert_audio os (VPath p) = raise FileNotFoundError.
Proof.
  intros Hff. unfold convert_audio, subprocess_run_check. simpl fsencode_all.
  rewrite Hff. reflexivity.
Qed.

Lemma stop_branch_aborts os pid :
  ffmpeg os = CannotRun -> aborts (stop_branch os pid).
Proof.
  intros Hff. unfold stop_branch.
  apply aborts_bind; [apply parse_args_keeps_files | intros _].
  destruct (Str.to_Z pid) as [n |].
  2: { intros s. rewrite bind_raise. apply (aborts_raise ValueError s). }
  apply aborts_bind; [apply keeps_ret, same_files_refl | intros n'].
  apply aborts_bind; [apply stop_recording_keeps_files | intros _].
  apply aborts_bind; [apply keeps_get, same_files_refl | intros s1].
  destruct (as_path (destination (args s1))) as [d |],
           (as_path (file_name (args s1))) as [f |];
    try (intros s; rewrite bind_raise; apply (aborts_raise TypeError s)).
  apply aborts_bind; [apply keeps_ret, same_files_refl | intros new_name].
  rewrite convert_audio_cannot_run by assumption.
  intros s. split; [eexists; reflexivity | apply same_files_refl].
Qed.

(** C2: the code misses the claim when the encoder cannot be run at all.
    [subprocess.run] then raises [FileNotFoundError], the handler in [main]
    catches [CalledProcessError] only, and the invocation ends in an
    exception with the session record and the raw buffer as it found them:
    on no stop-path invocation of such a host does cleanup take place. *)
Theorem encoder_missing_skips_cleanup os c raw info ps :
  ffmpeg os = CannotRun ->
  probe ps <> "" ->
  let r := main os (boot c raw info ps) in
  (exists e, fst r = Raise e) /\
  raw_file (snd r) = raw /\ info_file (snd r) = info.
Proof.
  intros Hff Hprobe. cbv zeta. rewrite main_run.
  pose proof (parse_args_frame os ".env" true (boot c raw info ps)) as Hframe.
  destruct (parse_args os ".env" true (boot c raw info ps))
    as [[[] | e] s1]; simpl in Hframe;
    destruct Hframe as (Hraw & Hinfo & Hprocs & _).
  - rewrite Hprocs.
    destruct (String.eqb_spec (probe ps) ""); [contradiction |].
    destruct (stop_branch_aborts os (probe ps) Hff s1) as [He [Hr Hi]].
    split; [exact He | split; congruence].
  - simpl. split; [eexists; reflexivity | split; assumption].
Qed.

Lemma encoder_missing_skips_cleanup_witness :
  let r := main no_encoder
                (boot no_flags (Some []) (Some (Object record_b))
                      [parec_4242]) in
  (exists e, fst r = Raise e) /\
  raw_file (snd r) = Some [] /\ info_file (snd r) = Some (Object record_b).
Proof.
  apply (encoder_missing_skips_cleanup
           no_encoder no_flags (Some []) (Some (Object record_b))
           [parec_4242]).
  - reflexivity.
  - vm_compute. discriminate.
Defined.

(** The same invocation, run: the process is signalled, the encoder is not
    run, and [FileNotFoundError] leaves [main]. *)
Lemma encoder_missing_run :
  let r := main no_encoder
                (boot no_flags (Some []) (Some (Object record_b))
                      [parec_4242]) in
  fst r = Raise FileNotFoundError /\
  trace (snd r) =
    [Signalled 4242; Log INFO (Text "Recording stopped (PID 4242)")].
Proof.
  vm_compute. split; reflexivity.
Qed.

(** The sibling path: an encoder that runs and exits non-zero is caught, and
    both files are removed. *)
Lemma encoder_failure_run :
  let r := main failing_encoder
                (boot no_flags (Some []) (Some (Object record_b))
                      [parec_4242]) in
  fst r = Ok tt /\ raw_file (snd r) = None /\ info_file (snd r) = None /\
  trace (snd r) =
    [Signalled 4242; Log INFO (Text "Recording stopped (PID 4242)");
     Ran ["ffmpeg"; "-f"; "s16le"; "-ar"; "48000"; "-ac"; "2"; "-i";
          "/opt/cab/_raw_audio.raw"; "/home/u/b.mp3"] 1;
     Log ERROR (WithExn "Failed to convert audio: " (CalledProcessError 1));
     Notify "Recording stopped" "Failed to convert audio"].
Proof.
  vm_compute. repeat split.
Qed.

(** ** C3: [clean_session] *)

(** What holds of [clean_session] on every state: it never raises, and a
    second call leaves the files as the first one did. *)
Lemma clean_session_returns s : fst (clean_session s) = Ok tt.
Proof.
  unfold clean_session, os_remove_raw, os_remove_info, try_except, bind, get.
  cbv beta iota.
  destruct (raw_file s); [| reflexivity]. simpl.
  destruct (info_file s); reflexivity.
Qed.

Lemma clean_session_files s :
  let s' := snd (clean_session s) in
  match raw_file s with
  | Some _ => raw_file s' = None /\ info_file s' = None
  | None => raw_file s' = None /\ info_file s' = info_file s
  end.
Proof.
  unfold clean_session, os_remove_raw, os_remove_info, try_except, bind, get.
  cbv beta iota.
  destruct (raw_file s) eqn:Hraw; simpl.
  - destruct (info_file s) eqn:Hinfo; simpl; rewrite ?Hinfo; auto.
  - auto.
Qed.

Lemma clean_session_twice s :
  same_files (snd (clean_session s))
             (snd (clean_session (snd (clean_session s)))).
Proof.
  pose proof (clean_session_files s) as H1.
  pose proof (clean_session_files (snd (clean_session s))) as H2.
  cbv zeta in H1, H2. unfold same_files.
  destruct (raw_file s).
  - destruct H1 as [Hr Hi]. rewrite Hr in H2. destruct H2 as [Hr2 Hi2].
    split; congruence.
  - destruct H1 as [Hr Hi]. rewrite Hr in H2. destruct H2 as [Hr2 Hi2].
    split; congruence.
Qed.

(** C3: the code misses the claim when the raw buffer is already absent and
    the session record is present.  [os.remove(RAW_FILE_NAME)] raises inside
    the [try], the removal of [INFO_FILE] is skipped, and [clean_session]
    returns after logging a warning with the record still on disk. *)
Theorem clean_session_leaves_record_without_raw s d :
  raw_file s = None ->
  info_file s = Some d ->
  clean_session s =
  (Ok tt,
   emit (Log WARNING (WithExn "Failed to clean session: " FileNotFoundError))
        s) /\
  info_file (snd (clean_session s)) = Some d.
Proof.
  intros Hraw Hinfo.
  assert (Hrun : clean_session s =
                 (Ok tt,
                  emit (Log WARNING
                            (WithExn "Failed to clean session: "
                                     FileNotFoundError)) s)).
  { unfold clean_session, os_remove_raw, try_except, bind, get.
    cbv beta iota. rewrite Hraw. reflexivity. }
  split; [exact Hrun |]. rewrite Hrun. simpl. exact Hinfo.
Qed.

Lemma clean_session_leaves_record_without_raw_witness :
  info_file
    (snd (clean_session (boot no_flags None (Some (Object record_b)) [])))
  = Some (Object record_b).
Proof.
  apply (clean_session_leaves_record_without_raw
           (boot no_flags None (Some (Object record_b)) [])
           (Object record_b)); reflexivity.
Defined.

(** ** C4: a session record that does not parse *)

(** C4, as stated, fails: with a record that does not parse and a capture
    process running, the invocation ends in [JSONDecodeError] before the
    probe; nothing is signalled, converted or removed. *)
Lemma corrupt_record_aborts_invocation :
  let s := boot no_flags (Some []) (Some Garbled) [parec_4242] in
  probe (procs s) = "4242" /\
  main studio s = (Raise JSONDecodeError, s) /\
  trace (snd (main studio s)) = [] /\
  info_file (snd (main studio s)) = Some Garbled.
Proof.
  vm_compute. repeat split.
Qed.

(** C4, amended: [load_session_info] returns the parsed record when the file
    is present and parses, and [None] when the file is absent; when the file
    is present but does not parse it raises [JSONDecodeError], which nothing
    catches: a stop-path invocation with such a record ends in that error
    without signalling the process, running the encoder or removing either
    file. *)
Theorem corrupt_record_is_fatal os c raw ps :
  probe ps <> "" ->
  (forall s,
      load_session_info s =
      match info_file s with
      | None => (Ok None, s)
      | Some Garbled => (Raise JSONDecodeError, s)
      | Some d => (Ok (Some d), s)
      end) /\
  let r := main os (boot c raw (Some Garbled) ps) in
  fst r = Raise JSONDecodeError /\
  raw_file (snd r) = raw /\ info_file (snd r) = Some Garbled /\
  procs (snd r) = ps /\ trace (snd r) = [].
Proof.
  intros Hprobe. split.
  - intros s. unfold load_session_info, bind, get. cbv beta iota.
    destruct (info_file s) as [[| items | b] |]; reflexivity.
  - cbv zeta. rewrite main_run.
    destruct (cli_env c) eqn:Henv.
    + rewrite parse_args_dotenv by (simpl; exact Henv).
      simpl procs.
      destruct (String.eqb_spec (probe ps) ""); [contradiction |].
      unfold stop_branch. unfold bind at 1.
      rewrite parse_args_garbled by reflexivity.
      simpl. auto.
    + rewrite parse_args_garbled
        by (try reflexivity; simpl; rewrite Henv; reflexivity).
      simpl. auto.
Qed.

Lemma corrupt_record_is_fatal_witness :
  fst (main studio (boot no_flags (Some []) (Some Garbled) [parec_4242])) =
  Raise JSONDecodeError.
Proof.
  apply (corrupt_record_is_fatal studio no_flags (Some []) [parec_4242]).
  vm_compute. discriminate.
Defined.

(** ** C5: when the environment file is consulted *)

(** C5, as stated, fails: on a stop-path invocation with [--env] the fields
    set by the environment file are in force.  With no session record the
    encoder writes to the file the environment names; with a complete record
    the [input] field still holds the environment's value. *)
Lemma dotenv_used_on_stop_path :
  probe [parec_4242] = "4242" /\
  encoded_to
    (trace (snd (main env_host (boot flags_env (Some []) None [parec_4242]))))
  = ["/tmp/e.mp3"] /\
  input
    (args (snd (main env_host
                     (boot flags_env (Some []) (Some (Object record_b))
                           [parec_4242]))))
  = VStr "mic9".
Proof.
  vm_compute. repeat split.
Qed.

(** C5, amended: the environment file is consulted only when [--env] is
    given.  On every invocation without [--env], start or stop path, no
    field takes its value from the environment file: the whole outcome of
    the invocation (result, globals, files, processes, effects) is the same
    whatever the environment file holds.  With [--env] the overlay is applied
    before the probe, so it is in force on the stop path too, where the
    members of the session record are then merged over it. *)
Theorem dotenv_ignored_without_env_flag os f c raw items ps :
  (cli_env c = false ->
   forall info,
     main (with_dotenv f os) (boot c raw info ps) =
     main os (boot c raw info ps)) /\
  (cli_env c = true ->
   probe ps <> "" ->
   args (snd (main os (boot c raw (Some (Object items)) ps))) =
   overlay (fun v => v) expected_keys items
           (overlay of_flag expected_keys (dotenv_values os ".env")
                    (parser_parse_args c))).
Proof.
  split.
  - intros Henv info. rewrite !main_run.
    assert (Hfirst :
              parse_args (with_dotenv f os) ".env" true (boot c raw info ps) =
              parse_args os ".env" true (boot c raw info ps)).
    { unfold parse_args, bind, get. cbv beta iota.
      cbn [truthy env args boot parser_parse_args].
      rewrite Henv. reflexivity. }
    rewrite Hfirst. reflexivity.
  - intros Henv Hprobe. rewrite main_run.
    rewrite parse_args_dotenv by (simpl; exact Henv).
    simpl procs. destruct (String.eqb_spec (probe ps) ""); [contradiction |].
    rewrite stop_branch_args.
    rewrite (parse_args_object _ _ false _ items) by reflexivity.
    reflexivity.
Qed.

Lemma dotenv_ignored_without_env_flag_witness :
  main env_host (boot flags_a (Some []) None [parec_4242]) =
  main studio (boot flags_a (Some []) None [parec_4242]) /\
  args (snd (main env_host
                  (boot flags_env (Some []) (Some (Object [("pid", VInt 4242)]))
                        [parec_4242]))) =
  {| file_name := VStr "e.mp3"; destination := VStr "/tmp";
     format := VStr "mp3"; env := VBool true; input := VStr "mic9" |}.
Proof.
  split.
  - apply (dotenv_ignored_without_env_flag
             studio (dotenv_values env_host) flags_a (Some []) [] [parec_4242]).
    reflexivity.
  - apply (dotenv_ignored_without_env_flag
             env_host (dotenv_values env_host) flags_env (Some [])
             [("pid", VInt 4242)] [parec_4242]).
    + reflexivity.
    + vm_compute. discriminate.
Defined.

(** ** C6: the process probe *)

(** With no matching process the probe is empty, and with one it is that
    process's identifier. *)
Lemma probe_none : probe [editor_77] = "".
Proof. reflexivity. Qed.

Lemma probe_single : probe [editor_77; parec_456] = "456".
Proof. reflexivity. Qed.

(** Decimal numerals contain no newline, so deleting newlines from the
    output of [pgrep] glues the numerals together. *)
Lemma remove_newlines_uint d rest :
  Str.remove_newlines (NilEmpty.string_of_uint d ++ rest) =
  NilEmpty.string_of_uint d ++ Str.remove_newlines rest.
Proof.
  induction d; simpl; try rewrite IHd; reflexivity.
Qed.

Lemma remove_newlines_numeral z rest :
  Str.remove_newlines (Str.of_Z z ++ rest) =
  Str.of_Z z ++ Str.remove_newlines rest.
Proof.
  unfold Str.of_Z, NilZero.string_of_int, NilZero.string_of_uint.
  destruct (Z.to_int z) as [d | d]; destruct d;
    try reflexivity;
    try (simpl; rewrite remove_newlines_uint; reflexivity).
Qed.

Lemma concat_empty_cons x xs :
  String.concat "" (x :: xs) = x ++ String.concat "" xs.
Proof.
  destruct xs as [| y ys]; simpl; [| reflexivity].
  induction x as [| c x IH]; simpl; [reflexivity | now rewrite <- IH].
Qed.

Lemma append_assoc (a b c : string) : (a ++ b) ++ c = a ++ b ++ c.
Proof.
  induction a as [| ch a IH]; simpl; [reflexivity | now rewrite IH].
Qed.

(** C6: the code misses the claim when several capture processes run.
    [pgrep] prints one identifier per line and [check_process_exists] only
    deletes the newlines, so on every process table the probe is the
    concatenation of the identifiers of all matching processes: the first
    match's identifier only when at most one process matches. *)
Theorem probe_concatenates_identifiers s :
  check_process_exists s =
  (Ok (String.concat ""
         (map (fun p => Str.of_Z (proc_pid p))
              (filter (fun p => Str.contains "parec" (proc_cmdline p))
                      (procs s)))),
   s).
Proof.
  unfold check_process_exists, bind, get, ret, pgrep. cbv beta iota.
  f_equal. f_equal.
  induction (filter (fun p => Str.contains "parec" (proc_cmdline p))
                    (procs s)) as [| p r IH].
  - reflexivity.
  - cbn [map]. rewrite !concat_empty_cons, append_assoc.
    rewrite remove_newlines_numeral. cbn [append Str.remove_newlines].
    replace (Ascii.eqb Str.newline Str.newline) with true by reflexivity.
    rewrite IH. reflexivity.
Qed.

(** Two capture processes, 123 and 456: the probe is [123456]; [main] signals
    that identifier, finds no such process, and both keep running. *)
Lemma probe_two_processes_run :
  let s := boot no_flags (Some []) (Some (Object record_b))
                [parec_123; editor_77; parec_456] in
  check_process_exists s = (Ok "123456", s) /\
  Str.to_Z "123456" = Some 123456 /\
  procs (snd (main studio s)) = [parec_123; editor_77; parec_456] /\
  In (Log ERROR (Text "Process with PID 123456 not found"))
     (trace (snd (main studio s))).
Proof.
  vm_compute. repeat split. auto.
Qed.

(** ** C7: stopping a process that is already gone *)

(** C7, as stated, fails: the record logged for a missing process has level
    [ERROR], and no warning is logged. *)
Lemma gone_process_logged_as_error :
  let r := stop_recording 4242 (boot no_flags None None []) in
  fst r = Ok tt /\
  trace (snd r) = [Log ERROR (Text "Process with PID 4242 not found")] /\
  ~ (exists m, In (Log WARNING m) (trace (snd r))).
Proof.
  vm_compute. repeat split.
  intros [m [H | []]]. discriminate H.
Qed.

Lemma addressed_absent pid ps :
  0 < pid -> has_pid pid ps = false -> addressed pid ps = [].
Proof.
  intros Hpos. unfold addressed, has_pid.
  replace (0 <? pid) with true by (symmetry; apply Z.ltb_lt; exact Hpos).
  induction ps as [| q r IH]; [reflexivity |].
  simpl. destruct (proc_pid q =? pid); simpl; [discriminate |].
  exact IH.
Qed.

(** C7, amended: [stop_recording] applied to the identifier of a process that
    is already gone returns normally: it logs one record at level [ERROR] (not
    a warning), changes nothing else and propagates no failure to its
    caller. *)
Theorem stop_recording_gone_process s pid :
  0 < pid <= INT_MAX ->
  has_pid pid (procs s) = false ->
  stop_recording pid s =
  (Ok tt,
   emit (Log ERROR (Text ("Process with PID " ++ Str.of_Z pid ++ " not found")))
        s).
Proof.
  intros [Hpos Hmax] Hgone.
  unfold stop_recording, os_kill, try_except, bind, get. cbv beta iota.
  replace ((pid <? INT_MIN) || (INT_MAX <? pid))%bool with false
    by (unfold INT_MIN, INT_MAX in *; symmetry; apply orb_false_intro;
        [apply Z.ltb_ge | apply Z.ltb_ge]; lia).
  replace (pid =? 0) with false by (symmetry; apply Z.eqb_neq; lia).
  rewrite addressed_absent by assumption. reflexivity.
Qed.

Lemma stop_recording_gone_process_witness :
  stop_recording 4242 (boot no_flags None None [editor_77]) =
  (Ok tt,
   emit (Log ERROR (Text "Process with PID 4242 not found"))
        (boot no_flags None None [editor_77])).
Proof.
  apply (stop_recording_gone_process
           (boot no_flags None None [editor_77]) 4242).
  - unfold INT_MAX. lia.
  - reflexivity.
Defined.

(** ** C8: a capture process that cannot be launched *)

(** C8, as stated, fails: on a machine with no session files, a start-path
    invocation whose launch fails leaves the raw buffer file behind; and a
    stale session record that was on disk is still there afterwards. *)
Lemma failed_launch_leaves_raw_buffer :
  let r := main no_parec (boot flags_mic None None []) in
  let r' := main no_parec
                 (boot flags_mic None (Some (Object stale_record)) []) in
  fst r = Raise FileNotFoundError /\
  raw_file (snd r) = Some [] /\ raw_file (snd r) <> None /\
  fst r' = Raise FileNotFoundError /\ info_file (snd r') <> None.
Proof.
  vm_compute. repeat split; discriminate.
Qed.

Lemma start_recording_fails os i s :
  parec_installed os = false \/ fsencode i = None ->
  exists e, start_recording os i s = (Raise e, with_raw (Some []) s).
Proof.
  intros Hfails. unfold start_recording. rewrite bind_modify.
  unfold bind, popen_parec, parec_argv. cbn [fsencode_all fsencode].
  destruct (fsencode i) as [dev |].
  - destruct Hfails as [Hparec | Hdev]; [| discriminate Hdev].
    rewrite Hparec. eexists. reflexivity.
  - eexists. reflexivity.
Qed.

Lemma start_branch_fails os s :
  parec_installed os = false \/ fsencode (input (args s)) = None ->
  exists e a,
    start_branch os s = (Raise e, with_raw (Some []) (with_args (fun _ => a) s)).
Proof.
  intros Hfails. unfold start_branch. rewrite bind_get.
  assert (Hend : forall s2 a,
             args s2 = a -> input a = input (args s) ->
             raw_file s2 = raw_file s ->
             info_file s2 = info_file s -> procs s2 = procs s ->
             trace s2 = trace s -> PID s2 = PID s ->
             exists e a',
               (s3 <- get ;;
                pid_number <- start_recording os (input (args s3)) ;;
                save_session_info pid_number) s2 =
               (Raise e, with_raw (Some []) (with_args (fun _ => a') s))).
  { intros s2 a Ha Hin Hr Hi Hp Ht Hpid. rewrite bind_get. unfold bind at 1.
    destruct (start_recording_fails os (input (args s2)) s2) as [e ->].
    { rewrite Ha, Hin. exact Hfails. }
    exists e, a. f_equal. destruct s, s2; unfold with_raw, with_args.
    simpl in *. subst. reflexivity. }
  destruct (truthy (file_name (args s))).
  - rewrite bind_ret, bind_get.
    destruct (truthy (destination (args s))).
    + rewrite bind_ret. eapply Hend; reflexivity.
    + rewrite bind_modify. eapply Hend; reflexivity.
  - rewrite bind_modify, bind_get.
    match goal with
    | |- context [truthy ?d] => destruct (truthy d)
    end.
    + rewrite bind_ret. eapply Hend; reflexivity.
    + rewrite bind_modify. eapply Hend; reflexivity.
Qed.

(** C8, amended: a start-path invocation in which launching the capture
    process fails ([Popen] raises, because the program cannot be executed or
    because the input device is not a string) ends in an exception before
    [save_session_info] is reached: the session record on disk is exactly
    what it was before the invocation (absent if it was absent), no process
    is added and nothing is notified.  The raw buffer file, opened before
    the launch, is left behind empty whenever the launch was attempted. *)
Theorem failed_launch_writes_no_record os c raw info ps :
  probe ps = "" ->
  parec_installed os = false \/
  fsencode
    (input (args (snd (parse_args os ".env" true (boot c raw info ps))))) =
  None ->
  let r := main os (boot c raw info ps) in
  (exists e, fst r = Raise e) /\
  info_file (snd r) = info /\ procs (snd r) = ps /\ trace (snd r) = [] /\
  (fst (parse_args os ".env" true (boot c raw info ps)) = Ok tt ->
   raw_file (snd r) = Some []).
Proof.
  intros Hprobe Hfails. cbv zeta. rewrite main_run.
  pose proof (parse_args_frame os ".env" true (boot c raw info ps)) as Hframe.
  destruct (parse_args os ".env" true (boot c raw info ps))
    as [[[] | e] s1]; simpl in Hframe; cbn [snd] in Hfails;
    destruct Hframe as (Hraw & Hinfo & Hprocs & Htrace).
  - rewrite Hprocs, Hprobe. simpl String.eqb. cbv iota.
    destruct (start_branch_fails os s1 Hfails) as (e & a & ->).
    simpl. repeat split; try assumption. eexists; reflexivity.
  - simpl. repeat split; try assumption.
    + eexists; reflexivity.
    + discriminate.
Qed.

Lemma failed_launch_writes_no_record_witness :
  (let r := main no_parec (boot flags_mic None None []) in
   (exists e, fst r = Raise e) /\
   info_file (snd r) = None /\ procs (snd r) = [] /\ trace (snd r) = [] /\
   (fst (parse_args no_parec ".env" true (boot flags_mic None None [])) =
    Ok tt ->
    raw_file (snd r) = Some [])) /\
  (let r := main studio (boot no_flags None None []) in
   (exists e, fst r = Raise e) /\
   info_file (snd r) = None /\ procs (snd r) = [] /\ trace (snd r) = [] /\
   (fst (parse_args studio ".env" true (boot no_flags None None [])) =
    Ok tt ->
    raw_file (snd r) = Some [])).
Proof.
  split.
  - apply (failed_launch_writes_no_record no_parec flags_mic None None []).
    + reflexivity.
    + left. reflexivity.
  - apply (failed_launch_writes_no_record studio no_flags None None []).
    + reflexivity.
    + right. reflexivity.
Defined.

(** The launch that fails with the capture program installed: without
    [--input] the argument vector holds [None] and [Popen] raises
    [TypeError]. *)
Lemma missing_input_run :
  let r := main studio (boot no_flags None None []) in
  fst r = Raise TypeError /\
  raw_file (snd r) = Some [] /\ info_file (snd r) = None /\
  trace (snd r) = [].
Proof.
  vm_compute. repeat split.
Qed.

(** ** C9: the encoder command *)

(** C9, the failing input run: a session started and stopped with [-f wav]
    runs the encoder on a file named [.mp3], and [wav] occurs nowhere in the
    command. *)
Lemma requested_format_not_in_command :
  let s1 := snd (main studio (boot flags_wav None None [])) in
  let s2 := snd (main studio
                      (boot flags_wav (raw_file s1) (info_file s1)
                            (procs s1))) in
  let cmd := ["ffmpeg"; "-f"; "s16le"; "-ar"; "48000"; "-ac"; "2"; "-i";
              "/opt/cab/_raw_audio.raw";
              "/home/u/audio_2024-05-01_10-00-00.mp3"] in
  format (args s2) = VStr "wav" /\
  trace s2 =
    [Signalled 4242; Log INFO (Text "Recording stopped (PID 4242)");
     Ran cmd 0;
     Notify "Recording stopped"
            "Audio saved to /home/u/audio_2024-05-01_10-00-00.mp3"] /\
  existsb (Str.contains "wav") cmd = false.
Proof.
  vm_compute. repeat split.
Qed.

(** C9: the code misses the claim.  [--format] is declared as the output
    format, stored in the session record and read back, and [convert_audio]
    is documented to convert "to given format", but [convert_audio] never
    receives the field: for every value [fmt] of it the command is the same.
    It tells the encoder to read the raw buffer as raw little-endian 16-bit
    PCM at 48 kHz with 2 channels and to write to the output path, and names
    no encoding of the output. *)
Theorem convert_audio_command os file out fmt rc s :
  fsencode file = Some out ->
  ffmpeg os = Exits rc ->
  format (args s) = fmt ->
  convert_audio os file s =
  (if rc =? 0 then Ok tt else Raise (CalledProcessError rc),
   emit (Ran ["ffmpeg"; "-f"; "s16le"; "-ar"; "48000"; "-ac"; "2"; "-i";
              Path.to_string (RAW_FILE_NAME os); out] rc) s).
Proof.
  intros Hout Hff _.
  assert (Hargv :
            fsencode_all
              (convert_audio_argv os
                 match file with
                 | VPath p => VStr (Path.to_string p)
                 | v => v
                 end) =
            Some ["ffmpeg"; "-f"; "s16le"; "-ar"; "48000"; "-ac"; "2"; "-i";
                  Path.to_string (RAW_FILE_NAME os); out]).
  { destruct file; simpl in Hout; try discriminate;
      injection Hout as <-; reflexivity. }
  unfold convert_audio, subprocess_run_check. rewrite Hargv, Hff.
  rewrite bind_modify. destruct (rc =? 0); reflexivity.
Qed.

Lemma convert_audio_command_witness :
  convert_audio studio (VStr "/home/u/take.mp3")
                (boot flags_wav (Some []) None []) =
  (Ok tt,
   emit (Ran ["ffmpeg"; "-f"; "s16le"; "-ar"; "48000"; "-ac"; "2"; "-i";
              "/opt/cab/_raw_audio.raw"; "/home/u/take.mp3"] 0)
        (boot flags_wav (Some []) None [])).
Proof.
  apply (convert_audio_command
           studio (VStr "/home/u/take.mp3") "/home/u/take.mp3" (VStr "wav") 0
           (boot flags_wav (Some []) None [])); reflexivity.
Defined.

(** ** C10: the first configuration pass reads a stale session record *)

Lemma start_recording_keeps_args os i : keeps same_args (start_recording os i).
Proof.
  unfold start_recording, popen_parec, show_notification. frame_args.
Qed.

Lemma save_session_info_keeps_args pid :
  keeps same_args (save_session_info pid).
Proof. unfold save_session_info. frame_args. Qed.

Lemma start_branch_args os s :
  args (snd (start_branch os s)) = fill_defaults os (args s).
Proof.
  assert (Htail : forall i, keeps same_args
                    (pid_number <- start_recording os i ;;
                     save_session_info pid_number)).
  { intros i. frame_args.
    - apply start_recording_keeps_args.
    - apply save_session_info_keeps_args. }
  unfold start_branch, fill_defaults. rewrite bind_get.
  destruct (truthy (file_name (args s))) eqn:Hname.
  - rewrite bind_ret, bind_get.
    destruct (truthy (destination (args s))) eqn:Hdest.
    + rewrite bind_ret, bind_get. apply Htail.
    + rewrite bind_modify, bind_get. rewrite (Htail _ _).
      destruct s; reflexivity.
  - rewrite bind_modify, bind_get.
    cbn [with_args args setattr String.eqb Ascii.eqb Bool.eqb destination].
    destruct (truthy (destination (args s))) eqn:Hdest.
    + rewrite bind_ret, bind_get. rewrite (Htail _ _).
      destruct s; reflexivity.
    + rewrite bind_modify, bind_get. rewrite (Htail _ _).
      destruct s; reflexivity.
Qed.

(** C10: without [--env] the first configuration pass, run before the probe,
    merges the persisted session record into [args]: file name, destination
    and format take the record's values, whatever the command line said.  On
    a start-path invocation (no capture process found) a stale record
    therefore decides these fields; a file name or destination that is false
    in Python's sense is then replaced by the computed default. *)
Theorem stale_record_decides_start_path os c raw items ps key v :
  cli_env c = false ->
  In key ["file_name"; "destination"; "format"] ->
  last_binding (fun v => v) key items = Some v ->
  let s := boot c raw (Some (Object items)) ps in
  fst (parse_args os ".env" true s) = Ok tt /\
  getattr (args (snd (parse_args os ".env" true s))) key = v /\
  (probe ps = "" ->
   key = "format" \/ truthy v = true ->
   getattr (args (snd (main os s))) key = v).
Proof.
  intros Henv Hin Hlast s. subst s. rewrite main_run.
  rewrite (parse_args_object _ _ true _ items)
    by (try reflexivity; simpl; rewrite Henv; reflexivity).
  simpl fst. simpl snd. simpl args.
  set (a := overlay (fun v => v) expected_keys items (parser_parse_args c)).
  assert (Ha : getattr a key = v).
  { subst a. rewrite getattr_overlay, Hlast; [reflexivity |].
    simpl in Hin. destruct Hin as [<- | [<- | [<- | []]]]; reflexivity. }
  split; [reflexivity | split; [exact Ha |]].
  intros Hprobe Hv.
  simpl procs. rewrite Hprobe. simpl String.eqb. cbv iota.
  rewrite start_branch_args. simpl args. fold a.
  clearbody a. unfold fill_defaults.
  simpl in Hin. destruct Hin as [<- | [<- | [<- | []]]];
    unfold getattr in Ha; simpl in Ha.
  - destruct Hv as [Hv | Hv]; [discriminate |].
    rewrite Ha, Hv. destruct (truthy (destination a)); exact Ha.
  - destruct Hv as [Hv | Hv]; [discriminate |].
    destruct (truthy (file_name a)); simpl; rewrite Ha, Hv; exact Ha.
  - destruct (truthy (file_name a)); simpl;
      destruct (truthy (destination a)); simpl; exact Ha.
Qed.

Lemma stale_record_decides_start_path_witness :
  let s := boot flags_new None (Some (Object stale_record)) [] in
  fst (parse_args studio ".env" true s) = Ok tt /\
  getattr (args (snd (parse_args studio ".env" true s))) "file_name" =
    VStr "old.mp3" /\
  (probe [] = "" ->
   "file_name" = "format" \/ truthy (VStr "old.mp3") = true ->
   getattr (args (snd (main studio s))) "file_name" = VStr "old.mp3").
Proof.
  apply (stale_record_decides_start_path
           studio flags_new None stale_record [] "file_name" (VStr "old.mp3")).
  - reflexivity.
  - simpl. auto.
  - reflexivity.
Defined.

(** The same invocation, run: the session that is started is recorded under
    the stale record's name, destination and format, not under those of the
    command line. *)
Lemma stale_record_run :
  let r := main studio (boot flags_new None (Some (Object stale_record)) []) in
  cli_file_name flags_new = Some "new.mp3" /\
  fst r = Ok tt /\
  info_file (snd r) =
    Some (Object [("pid", VInt 4242); ("file_name", VStr "old.mp3");
                  ("destination", VStr "/srv/old"); ("format", VStr "ogg")]).
Proof.
  vm_compute. repeat split.
Qed.

(** * Further properties of the script *)

(** ** Keys: case folding and unrecognised names *)

Lemma lower_ascii_idempotent c :
  Str.lower_ascii (Str.lower_ascii c) = Str.lower_ascii c.
Proof.
  destruct c as [[] [] [] [] [] [] [] []]; reflexivity.
Qed.

Lemma lower_idempotent s : Str.lower (Str.lower s) = Str.lower s.
Proof.
  induction s as [| c r IH]; simpl; [reflexivity |].
  rewrite lower_ascii_idempotent, IH. reflexivity.
Qed.

Lemma overlay_lower_keys {A} (g : A -> value) ks items :
  forall a, overlay g ks (lower_keys items) a = overlay g ks items a.
Proof.
  induction items as [| kv r IH]; intros a; simpl; [reflexivity |].
  unfold assign at 1. rewrite lower_idempotent. apply IH.
Qed.

Lemma overlay_pid_lower_keys {A} (g : A -> value) items :
  forall p, overlay_pid g (lower_keys items) p = overlay_pid g items p.
Proof.
  induction items as [| kv r IH]; intros p; simpl; [reflexivity |].
  unfold assign_pid at 1. rewrite lower_idempotent. apply IH.
Qed.

(** X1: [parse_args] reads the keys of the session record without regard to
    case: a record and the same record with every key lowered leave the same
    globals. *)
Theorem parse_args_case_insensitive os name s items :
  info_file s = Some (Object items) ->
  parse_args os name false (with_info (Some (Object (lower_keys items))) s) =
  (Ok tt,
   with_info (Some (Object (lower_keys items)))
             (snd (parse_args os name false s))) /\
  fst (parse_args os name false s) = Ok tt.
Proof.
  intros Hinfo.
  rewrite (parse_args_object os name false s items) by (auto; reflexivity).
  rewrite (parse_args_object os name false _ (lower_keys items))
    by reflexivity.
  split; [| reflexivity].
  simpl. rewrite overlay_pid_lower_keys. f_equal.
  destruct s; unfold with_info, with_PID, with_args; simpl.
  rewrite overlay_lower_keys. reflexivity.
Qed.

Lemma parse_args_case_insensitive_witness :
  parse_args studio ".env" false
    (with_info (Some (Object (lower_keys [("File_Name", VStr "x.mp3")])))
               (boot no_flags None
                     (Some (Object [("File_Name", VStr "x.mp3")])) [])) =
  (Ok tt,
   with_info (Some (Object (lower_keys [("File_Name", VStr "x.mp3")])))
     (snd (parse_args studio ".env" false
             (boot no_flags None
                   (Some (Object [("File_Name", VStr "x.mp3")])) [])))) /\
  fst (parse_args studio ".env" false
         (boot no_flags None (Some (Object [("File_Name", VStr "x.mp3")]))
               [])) = Ok tt.
Proof.
  apply (parse_args_case_insensitive
           studio ".env"
           (boot no_flags None (Some (Object [("File_Name", VStr "x.mp3")]))
                 [])
           [("File_Name", VStr "x.mp3")]).
  reflexivity.
Defined.





(** ** The session record: what is saved is what is read back *)

Lemma save_session_info_ok pid s :
  json_serializable (file_name (args s)) = true ->
  json_serializable (format (args s)) = true ->
  save_session_info pid s =
  (Ok tt, with_info (Some (Object (saved_record pid (args s)))) s).
Proof.
  intros Hname Hformat. unfold save_session_info.
  rewrite bind_modify, bind_get. cbn [args with_info].
  rewrite Hname, Hformat. destruct s; reflexivity.
Qed.

(** X3: round trip of the session record: when [save_session_info pid] has
    written the record of one invocation, [parse_args] of a later invocation
    that finds it gets back the same file name and format, the destination
    as the string [str] gives, and [pid] in the global [PID]; the fields the
    record does not hold ([env], [input]) stay those of the later
    invocation. *)
Theorem session_record_round_trip os name pid s t :
  json_serializable (file_name (args s)) = true ->
  json_serializable (format (args s)) = true ->
  info_file t = info_file (snd (save_session_info pid s)) ->
  fst (save_session_info pid s) = Ok tt /\
  fst (parse_args os name false t) = Ok tt /\
  let t' := snd (parse_args os name false t) in
  args t' =
    {| file_name := file_name (args s);
       destination := VStr (py_str (destination (args s)));
       format := format (args s);
       env := env (args t);
       input := input (args t) |} /\
  PID t' = VInt pid.
Proof.
  intros Hname Hformat Hinfo.
  rewrite save_session_info_ok in * by assumption. simpl in Hinfo.
  rewrite (parse_args_object os name false t (saved_record pid (args s)))
    by (auto; reflexivity).
  repeat split.
Qed.

Lemma session_record_round_trip_witness :
  let s := boot flags_new None None [] in
  let t := boot flags_mic None
                (info_file (snd (save_session_info 4242 s))) [] in
  fst (save_session_info 4242 s) = Ok tt /\
  fst (parse_args studio ".env" false t) = Ok tt /\
  let t' := snd (parse_args studio ".env" false t) in
  args t' =
    {| file_name := VStr "new.mp3";
       destination := VStr "/srv/new";
       format := VStr "wav";
       env := VBool false;
       input := VStr "mic0" |} /\
  PID t' = VInt 4242.
Proof.
  apply (session_record_round_trip
           studio ".env" 4242 (boot flags_new None None [])
           (boot flags_mic None
                 (info_file
                    (snd (save_session_info 4242
                            (boot flags_new None None [])))) []));
    reflexivity.
Defined.

(** ** The environment overlay *)

(** X4: with [--env] the first configuration pass gives every field the
    environment file names the file's value, over the command line's, and
    does not read the session record at all: it returns even when the record
    does not parse.  A key without a value sets the field to [None]. *)
Theorem env_overlay_overrides_flags os c raw info ps key :
  cli_env c = true ->
  mem key expected_keys = true ->
  let r := parse_args os ".env" true (boot c raw info ps) in
  fst r = Ok tt /\
  getattr (args (snd r)) key =
    match last_binding of_flag key (dotenv_values os ".env") with
    | Some v => v
    | None => getattr (parser_parse_args c) key
    end /\
  info_file (snd r) = info.
Proof.
  intros Henv Hkey. cbv zeta.
  rewrite parse_args_dotenv by (simpl; exact Henv).
  simpl. rewrite getattr_overlay by assumption. auto.
Qed.

Lemma env_overlay_overrides_flags_witness :
  let r := parse_args env_host ".env" true
                      (boot flags_env None (Some Garbled) []) in
  fst r = Ok tt /\
  getattr (args (snd r)) "input" = VStr "mic9" /\
  info_file (snd r) = Some Garbled.
Proof.
  apply (env_overlay_overrides_flags
           env_host flags_env None (Some Garbled) [] "input"); reflexivity.
Defined.

(** ** [clean_session] on every state *)

(** X5: [clean_session] never raises and changes neither the configuration
    nor the process table; the raw buffer is always gone afterwards, and the
    record is gone whenever the raw buffer was there to remove.  A second
    call leaves both files as the first one did. *)
Theorem clean_session_total s :
  let s' := snd (clean_session s) in
  fst (clean_session s) = Ok tt /\
  raw_file s' = None /\
  (raw_file s <> None -> info_file s' = None) /\
  args s' = args s /\ PID s' = PID s /\ procs s' = procs s /\
  raw_file (snd (clean_session s')) = raw_file s' /\
  info_file (snd (clean_session s')) = info_file s'.
Proof.
  cbv zeta.
  pose proof (clean_session_files s) as Hfiles. cbv zeta in Hfiles.
  pose proof (clean_session_twice s) as [Hr2 Hi2].
  repeat split; auto.
  - apply clean_session_returns.
  - destruct (raw_file s); tauto.
  - intros Hraw. destruct (raw_file s); [tauto | contradiction].
  - apply clean_session_keeps_args.
  - unfold clean_session, os_remove_raw, os_remove_info, try_except, bind, get.
    cbv beta iota. destruct (raw_file s); [| reflexivity]. simpl.
    destruct (info_file s); reflexivity.
  - unfold clean_session, os_remove_raw, os_remove_info, try_except, bind, get.
    cbv beta iota. destruct (raw_file s); [| reflexivity]. simpl.
    destruct (info_file s); reflexivity.
Qed.

(** ** The probe and the branch [main] takes *)

Lemma of_Z_nonempty z : Str.of_Z z <> "".
Proof.
  unfold Str.of_Z, NilZero.string_of_int, NilZero.string_of_uint.
  destruct (Z.to_int z) as [d | d]; destruct d; simpl; discriminate.
Qed.

Lemma to_Z_of_Z z : 0 <= z -> Str.to_Z (Str.of_Z z) = Some z.
Proof.
  intros Hz. unfold Str.to_Z, Str.of_Z.
  destruct z as [| p | p]; [reflexivity | | lia].
  cbn [Z.to_int NilZero.string_of_int].
  rewrite NilZero.usu by apply DecimalPos.Unsigned.to_uint_nonnil.
  cbn [option_map]. unfold Z.of_uint.
  rewrite DecimalPos.Unsigned.of_to. reflexivity.
Qed.

Lemma probe_filter ps :
  probe ps =
  String.concat "" (map (fun p => Str.of_Z (proc_pid p)) (filter matches ps)).
Proof.
  unfold probe, pgrep. fold matches.
  induction (filter matches ps) as [| p r IH]; [reflexivity |].
  cbn [map]. rewrite !concat_empty_cons, append_assoc.
  rewrite remove_newlines_numeral. cbn [append Str.remove_newlines].
  replace (Ascii.eqb Str.newline Str.newline) with true by reflexivity.
  rewrite IH. reflexivity.
Qed.

Lemma probe_empty_filter ps : probe ps = "" -> filter matches ps = [].
Proof.
  rewrite probe_filter. destruct (filter matches ps) as [| p r]; [reflexivity |].
  cbn [map]. rewrite concat_empty_cons. intros H.
  destruct (Str.of_Z (proc_pid p)) eqn:Hp; [| discriminate H].
  exfalso. exact (of_Z_nonempty _ Hp).
Qed.

(** X6: [main] takes the start branch exactly when no process has [parec] in its
    command line: the probe is empty if and only if no process matches. *)
Theorem probe_empty_iff_no_match ps :
  probe ps = "" <-> Forall (fun p => matches p = false) ps.
Proof.
  split.
  - intros H. apply probe_empty_filter in H.
    induction ps as [| p r IH]; constructor.
    + simpl in H. destruct (matches p); [discriminate H | reflexivity].
    + apply IH. simpl in H. destruct (matches p); [discriminate H | exact H].
  - intros H. rewrite probe_filter.
    replace (filter matches ps) with (@nil process); [reflexivity |].
    induction H as [| p r Hp _ IH]; simpl; [reflexivity |].
    rewrite Hp. exact IH.
Qed.

(** X7: with exactly one matching process the probe is that process's identifier
    in decimal, and [int] of the probe is the identifier: the stop branch
    signals the process that was found. *)
Theorem probe_single_match ps q :
  filter matches ps = [q] ->
  0 <= proc_pid q ->
  probe ps = Str.of_Z (proc_pid q) /\
  probe ps <> "" /\
  Str.to_Z (probe ps) = Some (proc_pid q).
Proof.
  intros Hone Hpid. rewrite probe_filter, Hone. cbn [map String.concat].
  repeat split.
  - apply of_Z_nonempty.
  - apply to_Z_of_Z. exact Hpid.
Qed.

Lemma probe_single_match_witness :
  probe [editor_77; parec_4242] = Str.of_Z 4242 /\
  probe [editor_77; parec_4242] <> "" /\
  Str.to_Z (probe [editor_77; parec_4242]) = Some 4242.
Proof.
  apply (probe_single_match [editor_77; parec_4242] parec_4242).
  - reflexivity.
  - simpl. lia.
Defined.

(** ** The start branch *)

Lemma start_recording_launched os i dev s :
  fsencode i = Some dev ->
  parec_installed os = true ->
  start_recording os i s =
  (if notify_installed os then Ok (fresh_pid os) else Raise FileNotFoundError,
   let s1 := emit (Spawned (fresh_pid os) (capture_argv dev))
                  (with_procs (procs s ++ [capture_process os dev])
                              (with_raw (Some []) s)) in
   if notify_installed os
   then emit (Notify "Recording Started" "Capturing audio...") s1
   else s1).
Proof.
  intros Hdev Hparec. unfold start_recording. rewrite bind_modify.
  unfold bind at 1. unfold popen_parec, parec_argv. cbn [fsencode_all fsencode].
  rewrite Hdev, Hparec. rewrite bind_get, bind_modify, bind_modify.
  unfold ret at 1. cbv beta iota. unfold show_notification.
  destruct (notify_installed os); destruct s; reflexivity.
Qed.

Lemma start_branch_defaults os s :
  start_branch os s =
  (pid_number <- start_recording os (input (args s)) ;;
   save_session_info pid_number)
    (with_args (fun _ => fill_defaults os (args s)) s).
Proof.
  unfold start_branch, fill_defaults. rewrite bind_get.
  destruct (truthy (file_name (args s))) eqn:Hname.
  - rewrite bind_ret, bind_get.
    destruct (truthy (destination (args s))) eqn:Hdest.
    + rewrite bind_ret, bind_get. destruct s; reflexivity.
    + rewrite bind_modify, bind_get. destruct s; reflexivity.
  - rewrite bind_modify, bind_get.
    cbn [with_args args setattr String.eqb Ascii.eqb Bool.eqb destination].
    destruct (truthy (destination (args s))) eqn:Hdest.
    + rewrite bind_ret, bind_get. destruct s; reflexivity.
    + rewrite bind_modify, bind_get. destruct s; reflexivity.
Qed.

(** What the command line leaves in [args] can always be written by
    [json.dump], and the file name the start branch settles on is a
    string. *)
Lemma fill_defaults_cli os c :
  let a := fill_defaults os (parser_parse_args c) in
  json_serializable (file_name a) = true /\
  json_serializable (format a) = true /\
  (exists f, file_name a = VStr f) /\
  input a = of_flag (cli_input c).
Proof.
  destruct c as [fn dst fmt e inp]. unfold fill_defaults, parser_parse_args.
  cbn [file_name destination format input cli_file_name cli_destination
       cli_format cli_input of_flag].
  destruct fn as [fn |], dst as [dst |], fmt as [fmt |];
    cbn [of_flag truthy];
    repeat match goal with
           | |- context [if ?b then _ else _] => destruct b; cbn
           end;
    cbn; repeat split; eexists; reflexivity.
Qed.

Lemma start_branch_run os s dev :
  fsencode (input (args s)) = Some dev ->
  parec_installed os = true ->
  notify_installed os = true ->
  json_serializable (file_name (fill_defaults os (args s))) = true ->
  json_serializable (format (fill_defaults os (args s))) = true ->
  start_branch os s =
  (Ok tt,
   with_info
     (Some (Object (saved_record (fresh_pid os) (fill_defaults os (args s)))))
     (emit (Notify "Recording Started" "Capturing audio...")
        (emit (Spawned (fresh_pid os) (capture_argv dev))
           (with_procs (procs s ++ [capture_process os dev])
              (with_raw (Some [])
                 (with_args (fun _ => fill_defaults os (args s)) s)))))).
Proof.
  intros Hdev Hparec Hnotify Hname Hformat.
  rewrite start_branch_defaults. unfold bind at 1.
  rewrite (start_recording_launched os _ dev) by assumption.
  rewrite Hnotify.
  rewrite save_session_info_ok by assumption.
  reflexivity.
Qed.

(** X8: a successful start: with no session record on disk, no capture process
    running, [parec] and [notify-send] installed and an input device given,
    [main] returns normally, leaves an empty raw buffer, the launched process
    in the table and exactly the record of the launched identifier with the
    resolved file name, destination and format, and notifies the user. *)
Theorem start_creates_session os c raw ps dev :
  cli_env c = false ->
  cli_input c = Some dev ->
  probe ps = "" ->
  parec_installed os = true ->
  notify_installed os = true ->
  let a := fill_defaults os (parser_parse_args c) in
  main os (boot c raw None ps) =
  (Ok tt,
   {| args := a;
      PID := VNone;
      raw_file := Some [];
      info_file := Some (Object (saved_record (fresh_pid os) a));
      procs := ps ++ [capture_process os dev];
      trace := [Spawned (fresh_pid os) (capture_argv dev);
                Notify "Recording Started" "Capturing audio..."] |}).
Proof.
  intros Henv Hdev Hprobe Hparec Hnotify a. rewrite main_run.
  rewrite parse_args_absent
    by (try reflexivity; simpl; rewrite Henv; reflexivity).
  cbn [procs boot]. rewrite Hprobe. cbn [String.eqb].
  destruct (fill_defaults_cli os c) as (Hname & Hformat & _ & _).
  rewrite (start_branch_run os _ dev); try assumption.
  - reflexivity.
  - cbn [args boot input parser_parse_args]. rewrite Hdev. reflexivity.
Qed.

Lemma start_creates_session_witness :
  main studio (boot flags_mic None None [editor_77]) =
  (Ok tt,
   {| args := fill_defaults studio (parser_parse_args flags_mic);
      PID := VNone;
      raw_file := Some [];
      info_file :=
        Some (Object (saved_record 4242
                        (fill_defaults studio (parser_parse_args flags_mic))));
      procs := [editor_77; capture_process studio "mic0"];
      trace := [Spawned 4242 (capture_argv "mic0");
                Notify "Recording Started" "Capturing audio..."] |}).
Proof.
  apply (start_creates_session studio flags_mic None [editor_77] "mic0");
    reflexivity.
Defined.

(** X9: a start without [notify-send]: the capture process is launched and keeps
    running, but the exception from [show_notification] leaves [main] before
    [save_session_info]: no session record is written for the running
    process. *)
Theorem start_without_notification_program os c raw ps dev :
  cli_env c = false ->
  cli_input c = Some dev ->
  probe ps = "" ->
  parec_installed os = true ->
  notify_installed os = false ->
  let r := main os (boot c raw None ps) in
  fst r = Raise FileNotFoundError /\
  info_file (snd r) = None /\
  raw_file (snd r) = Some [] /\
  procs (snd r) = (ps ++ [capture_process os dev])%list /\
  trace (snd r) = [Spawned (fresh_pid os) (capture_argv dev)].
Proof.
  intros Henv Hdev Hprobe Hparec Hnotify. cbv zeta.
  assert (Hrun :
            main os (boot c raw None ps) =
            (Raise FileNotFoundError,
             emit (Spawned (fresh_pid os) (capture_argv dev))
                  (with_procs (ps ++ [capture_process os dev])
                     (with_raw (Some [])
                        (with_args
                           (fun _ => fill_defaults os (parser_parse_args c))
                           (boot c raw None ps)))))).
  { rewrite main_run.
    rewrite parse_args_absent
      by (try reflexivity; simpl; rewrite Henv; reflexivity).
    cbn [procs boot]. rewrite Hprobe. cbn [String.eqb].
    rewrite start_branch_defaults. cbn [args boot].
    unfold bind at 1.
    rewrite (start_recording_launched os _ dev)
      by (try assumption; cbn [input parser_parse_args]; rewrite Hdev;
          reflexivity).
    rewrite Hnotify. reflexivity. }
  rewrite Hrun. repeat split.
Qed.

Lemma start_without_notification_program_witness :
  let r := main no_notifier (boot flags_mic None None []) in
  fst r = Raise FileNotFoundError /\
  info_file (snd r) = None /\
  raw_file (snd r) = Some [] /\
  procs (snd r) = [capture_process no_notifier "mic0"] /\
  trace (snd r) = [Spawned 4242 (capture_argv "mic0")].
Proof.
  apply (start_without_notification_program
           no_notifier flags_mic None [] "mic0"); reflexivity.
Defined.

(** ** The stop branch *)

Lemma encoded_to_app a b :
  encoded_to (a ++ b) = (encoded_to a ++ encoded_to b)%list.
Proof.
  induction a as [| e a IH]; [reflexivity |].
  destruct e; simpl; rewrite IH; reflexivity.
Qed.

Lemma addressed_present p ps :
  0 < p -> has_pid p ps = true -> addressed p ps <> [].
Proof.
  intros Hpos. unfold addressed, has_pid.
  replace (0 <? p) with true by (symmetry; apply Z.ltb_lt; exact Hpos).
  induction ps as [| q r IH]; simpl; [discriminate |].
  destruct (proc_pid q =? p); simpl; [discriminate | exact IH].
Qed.

(** [stop_recording] on a positive identifier that fits a C [int]. *)
Lemma stop_recording_positive p s :
  0 < p <= INT_MAX ->
  stop_recording p s =
  if has_pid p (procs s) then
    if hits_self p (procs s) then (Raise Terminated, emit (Signalled p) s)
    else
      (Ok tt,
       emit (Log INFO (Text ("Recording stopped (PID " ++ Str.of_Z p ++ ")")))
            (emit (Signalled p) s))
  else
    (Ok tt,
     emit (Log ERROR (Text ("Process with PID " ++ Str.of_Z p ++ " not found")))
          s).
Proof.
  intros [Hpos Hmax].
  unfold stop_recording, os_kill, logger, try_except, bind, get, modify.
  cbv beta iota.
  replace ((p <? INT_MIN) || (INT_MAX <? p))%bool with false
    by (unfold INT_MIN, INT_MAX in *; symmetry; apply orb_false_intro;
        [apply Z.ltb_ge | apply Z.ltb_ge]; lia).
  replace (p =? 0) with false by (symmetry; apply Z.eqb_neq; lia).
  destruct (has_pid p (procs s)) eqn:Hlive.
  - pose proof (addressed_present p (procs s) Hpos Hlive) as Hsome.
    destruct (addressed p (procs s)) as [| q r]; [contradiction |].
    destruct (hits_self p (procs s)); reflexivity.
  - rewrite addressed_absent by assumption. reflexivity.
Qed.

(** When the identifier is not the script's own, [stop_recording] returns
    and has only added to the trace, and nothing the encoder ran. *)
Lemma stop_recording_other p s :
  0 < p <= INT_MAX ->
  hits_self p (procs s) = false ->
  exists s',
    stop_recording p s = (Ok tt, s') /\
    args s' = args s /\ raw_file s' = raw_file s /\
    info_file s' = info_file s /\ procs s' = procs s /\
    encoded_to (trace s') = encoded_to (trace s).
Proof.
  intros Hp Hother. rewrite stop_recording_positive by assumption.
  rewrite Hother.
  destruct (has_pid p (procs s)); eexists; (split; [reflexivity |]); cbn;
    rewrite ?encoded_to_app; cbn; rewrite ?app_nil_r; auto 6.
Qed.

Lemma convert_audio_path os p s rc :
  ffmpeg os = Exits rc ->
  convert_audio os (VPath p) s =
  (if rc =? 0 then Ok tt else Raise (CalledProcessError rc),
   emit (Ran ["ffmpeg"; "-f"; "s16le"; "-ar"; "48000"; "-ac"; "2"; "-i";
              Path.to_string (RAW_FILE_NAME os); Path.to_string p] rc) s).
Proof.
  intros Hff. unfold convert_audio, subprocess_run_check.
  cbn [convert_audio_argv fsencode_all fsencode]. rewrite Hff.
  rewrite bind_modify. destruct (rc =? 0); reflexivity.
Qed.

Lemma clean_session_effect s :
  exists s',
    clean_session s = (Ok tt, s') /\
    raw_file s' = None /\
    (raw_file s <> None -> info_file s' = None) /\
    procs s' = procs s /\ args s' = args s /\
    encoded_to (trace s') = encoded_to (trace s).
Proof.
  unfold clean_session, os_remove_raw, os_remove_info, logger, try_except,
    bind, get, modify.
  cbv beta iota.
  destruct (raw_file s) eqn:Hraw; cbv beta iota.
  - cbn [info_file with_raw].
    destruct (info_file s) eqn:Hinfo; cbv beta iota; eexists;
      (split; [reflexivity |]); cbn;
      rewrite ?encoded_to_app; cbn; rewrite ?app_nil_r; auto 6.
  - eexists; (split; [reflexivity |]); cbn;
      rewrite ?encoded_to_app; cbn; rewrite ?app_nil_r.
    repeat split; auto. intros H; contradiction.
Qed.

(** The part of the stop branch that follows the choice of the output
    file. *)
Lemma stop_tail_effect os new_name rc s :
  ffmpeg os = Exits rc ->
  notify_installed os = true ->
  exists s',
    (returned <-
       try_except
         (convert_audio os (VPath new_name) ;; ret false)
         is_CalledProcessError
         (fun e =>
            logger ERROR (WithExn "Failed to convert audio: " e) ;;
            show_notification os "Recording stopped"
                              "Failed to convert audio" ;;
            clean_session ;;
            ret true) ;;
     if returned : bool then ret tt
     else
       show_notification os "Recording stopped"
                         ("Audio saved to " ++ Path.to_string new_name) ;;
       clean_session) s = (Ok tt, s') /\
    raw_file s' = None /\
    (raw_file s <> None -> info_file s' = None) /\
    procs s' = procs s /\ args s' = args s /\
    encoded_to (trace s') =
      (encoded_to (trace s) ++ [Path.to_string new_name])%list.
Proof.
  intros Hff Hnotify.
  unfold bind at 1. unfold try_except. unfold bind at 1.
  rewrite (convert_audio_path os new_name s rc Hff).
  destruct (rc =? 0).
  - unfold ret at 1. cbv beta iota.
    unfold bind at 1. unfold show_notification. rewrite Hnotify.
    unfold modify at 1. cbv beta iota.
    match goal with
    | |- context [clean_session ?x] =>
        destruct (clean_session_effect x)
        as (s' & Hrun & Hraw & Hinfo & Hprocs & Hargs & Henc)
    end.
    exists s'. split; [exact Hrun |].
    cbn in Hinfo, Hprocs, Hargs, Henc.
    rewrite !encoded_to_app in Henc. cbn in Henc.
    rewrite app_nil_r in Henc. auto 6.
  - cbv beta iota. cbn [is_CalledProcessError].
    unfold logger. rewrite bind_modify.
    unfold bind at 1. unfold show_notification. rewrite Hnotify.
    unfold modify at 1. cbv beta iota.
    unfold bind at 1.
    match goal with
    | |- context [clean_session ?x] =>
        destruct (clean_session_effect x)
        as (s' & Hrun & Hraw & Hinfo & Hprocs & Hargs & Henc)
    end.
    rewrite Hrun. unfold ret at 1. cbv beta iota.
    exists s'. split; [reflexivity |].
    cbn in Hinfo, Hprocs, Hargs, Henc.
    rewrite !encoded_to_app in Henc. cbn in Henc.
    rewrite ?app_nil_r in Henc. auto 6.
Qed.

Lemma stop_branch_converts os pid p s items fv dv f d rc :
  info_file s = Some (Object items) ->
  last_binding (fun v => v) "file_name" items = Some fv ->
  as_path fv = Some f ->
  last_binding (fun v => v) "destination" items = Some dv ->
  as_path dv = Some d ->
  Str.to_Z pid = Some p ->
  0 < p <= INT_MAX ->
  hits_self p (procs s) = false ->
  ffmpeg os = Exits rc ->
  notify_installed os = true ->
  exists s',
    stop_branch os pid s = (Ok tt, s') /\
    raw_file s' = None /\
    (raw_file s <> None -> info_file s' = None) /\
    procs s' = procs s /\
    encoded_to (trace s') =
      (encoded_to (trace s) ++ [Path.to_string (Path.truediv d f)])%list.
Proof.
  intros Hinfo Hfv Hf Hdv Hd Hpid Hp Hother Hff Hnotify.
  unfold stop_branch. unfold bind at 1.
  rewrite (parse_args_object os _ false s items) by (auto; reflexivity).
  cbv beta iota. rewrite Hpid, bind_ret. unfold bind at 1.
  set (a := overlay (fun v => v) expected_keys items (args s)).
  assert (Hdest : destination a = dv).
  { change (getattr a "destination" = dv). subst a.
    rewrite getattr_overlay, Hdv; reflexivity. }
  assert (Hname : file_name a = fv).
  { change (getattr a "file_name" = fv). subst a.
    rewrite getattr_overlay, Hfv; reflexivity. }
  match goal with
  | |- context [stop_recording p ?x] =>
      destruct (stop_recording_other p x Hp Hother)
      as (s2 & Hstop & Hargs2 & Hraw2 & Hinfo2 & Hprocs2 & Henc2)
  end.
  rewrite Hstop. cbv beta iota. rewrite bind_get.
  cbn [args with_PID with_args] in Hargs2. fold a in Hargs2.
  rewrite Hargs2, Hdest, Hname, Hd, Hf, bind_ret.
  destruct (stop_tail_effect os (Path.truediv d f) rc s2 Hff Hnotify)
    as (s' & Hrun & Hraw & Hinfo' & Hprocs & _ & Henc).
  exists s'. split; [exact Hrun |].
  cbn in Hraw2, Hinfo2, Hprocs2, Henc2.
  rewrite Hraw2 in Hinfo'. rewrite Hprocs2 in Hprocs. rewrite Henc2 in Henc.
  auto.
Qed.

(** The first configuration pass on a session record that is an object. *)
Lemma first_pass_object os c raw items ps :
  exists s1,
    parse_args os ".env" true (boot c raw (Some (Object items)) ps) =
    (Ok tt, s1) /\
    raw_file s1 = raw /\ info_file s1 = Some (Object items) /\
    procs s1 = ps /\ trace s1 = [].
Proof.
  destruct (cli_env c) eqn:Henv.
  - rewrite parse_args_dotenv by (simpl; exact Henv).
    eexists. split; [reflexivity |]. cbn. auto.
  - rewrite (parse_args_object _ _ true _ items)
      by (try reflexivity; simpl; rewrite Henv; reflexivity).
    eexists. split; [reflexivity |]. cbn. auto.
Qed.

(** X10: a stop with the encoder available: when a capture process other than
    the script itself is found, the session record names a file and a
    destination, and [ffmpeg] can be run, [main] returns normally whatever
    status the encoder exits with; the encoder was run once, on
    destination/file name taken from the record, the raw buffer is gone
    afterwards and, if it was there to remove, so is the record. *)
Theorem stop_converts_and_cleans os c raw items ps p fv dv f d rc :
  last_binding (fun v => v) "file_name" items = Some fv ->
  as_path fv = Some f ->
  last_binding (fun v => v) "destination" items = Some dv ->
  as_path dv = Some d ->
  Str.to_Z (probe ps) = Some p ->
  0 < p <= INT_MAX ->
  hits_self p ps = false ->
  ffmpeg os = Exits rc ->
  notify_installed os = true ->
  let r := main os (boot c raw (Some (Object items)) ps) in
  fst r = Ok tt /\
  raw_file (snd r) = None /\
  (raw <> None -> info_file (snd r) = None) /\
  encoded_to (trace (snd r)) = [Path.to_string (Path.truediv d f)].
Proof.
  intros Hfv Hf Hdv Hd Hpid Hp Hother Hff Hnotify. cbv zeta.
  assert (Hprobe : probe ps <> "").
  { intros Hempty. rewrite Hempty in Hpid. discriminate Hpid. }
  rewrite main_run.
  destruct (first_pass_object os c raw items ps)
    as (s1 & -> & Hraw1 & Hinfo1 & Hprocs1 & Htrace1).
  rewrite Hprocs1.
  destruct (String.eqb_spec (probe ps) ""); [contradiction |].
  destruct (stop_branch_converts os (probe ps) p s1 items fv dv f d rc)
    as (s' & Hrun & Hraw & Hinfo & Hprocs & Henc); try assumption.
  { rewrite Hprocs1. exact Hother. }
  rewrite Hrun. cbn [fst snd].
  rewrite Hraw1 in Hinfo. rewrite Htrace1 in Henc. auto 6.
Qed.

Lemma stop_converts_and_cleans_witness :
  let r := main failing_encoder
                (boot no_flags (Some []) (Some (Object record_b))
                      [editor_77; parec_4242]) in
  fst r = Ok tt /\
  raw_file (snd r) = None /\
  (Some (@nil Byte.byte) <> None -> info_file (snd r) = None) /\
  encoded_to (trace (snd r)) =
    [Path.to_string (Path.truediv (Path.of_string "/home/u")
                                  (Path.of_string "b.mp3"))].
Proof.
  apply (stop_converts_and_cleans
           failing_encoder no_flags (Some []) record_b
           [editor_77; parec_4242] 4242 (VStr "b.mp3") (VStr "/home/u")
           (Path.of_string "b.mp3") (Path.of_string "/home/u") 1);
    try reflexivity.
  unfold INT_MAX. lia.
Defined.

(** X11: a stop with no session record on disk and no file name or no
    destination on the command line: the stop branch computes no default,
    so once a process other than the script itself has been signalled (or
    found gone), [Path(None)] raises [TypeError]; the encoder is not run and
    the raw buffer is left on disk. *)
Theorem stop_without_record_fails os c raw ps p :
  cli_env c = false ->
  cli_file_name c = None \/ cli_destination c = None ->
  Str.to_Z (probe ps) = Some p ->
  0 < p <= INT_MAX ->
  hits_self p ps = false ->
  let r := main os (boot c raw None ps) in
  fst r = Raise TypeError /\
  raw_file (snd r) = raw /\ info_file (snd r) = None /\
  encoded_to (trace (snd r)) = [].
Proof.
  intros Henv Hmissing Hpid Hp Hother. cbv zeta.
  assert (Hprobe : probe ps <> "").
  { intros Hempty. rewrite Hempty in Hpid. discriminate Hpid. }
  assert (Hnone :
            match as_path (destination (parser_parse_args c)),
                  as_path (file_name (parser_parse_args c)) with
            | Some _, Some _ => False
            | _, _ => True
            end).
  { destruct c as [fn dst fmt e inp]. cbn in Hmissing |- *.
    destruct Hmissing as [-> | ->]; cbn; [destruct dst |]; exact I. }
  assert (Hrun :
            exists s',
              main os (boot c raw None ps) = (Raise TypeError, s') /\
              raw_file s' = raw /\ info_file s' = None /\
              encoded_to (trace s') = []).
  { rewrite main_run.
    rewrite parse_args_absent
      by (try reflexivity; simpl; rewrite Henv; reflexivity).
    cbn [procs boot].
    destruct (String.eqb_spec (probe ps) ""); [contradiction |].
    unfold stop_branch. unfold bind at 1.
    rewrite parse_args_absent by reflexivity.
    cbv beta iota. rewrite Hpid, bind_ret. unfold bind at 1.
    destruct (stop_recording_other p (boot c raw None ps) Hp Hother)
      as (s2 & -> & Hargs2 & Hraw2 & Hinfo2 & _ & Henc2).
    cbv beta iota. rewrite bind_get. rewrite Hargs2. cbn [args boot].
    destruct (as_path (destination (parser_parse_args c)));
      try destruct (as_path (file_name (parser_parse_args c)));
      try contradiction;
      rewrite bind_raise; eexists; (split; [reflexivity |]); auto. }
  destruct Hrun as (s' & -> & H). exact (conj eq_refl H).
Qed.

Lemma stop_without_record_fails_witness :
  let r := main studio (boot no_flags (Some []) None [parec_4242]) in
  fst r = Raise TypeError /\
  raw_file (snd r) = Some [] /\ info_file (snd r) = None /\
  encoded_to (trace (snd r)) = [].
Proof.
  apply (stop_without_record_fails studio no_flags (Some []) [parec_4242] 4242).
  - reflexivity.
  - left. reflexivity.
  - reflexivity.
  - unfold INT_MAX. lia.
  - reflexivity.
Defined.

(** ** What a stop shows the user *)

Lemma clean_session_both s b d :
  raw_file s = Some b ->
  info_file s = Some d ->
  clean_session s = (Ok tt, with_info None (with_raw None s)).
Proof.
  intros Hraw Hinfo.
  unfold clean_session, os_remove_raw, os_remove_info, try_except, bind, get,
    modify.
  cbv beta iota. rewrite Hraw. cbv beta iota. cbn [info_file with_raw].
  rewrite Hinfo. reflexivity.
Qed.

Lemma stop_tail_trace os new_name rc s b d :
  ffmpeg os = Exits rc ->
  notify_installed os = true ->
  raw_file s = Some b ->
  info_file s = Some d ->
  exists s',
    (returned <-
       try_except
         (convert_audio os (VPath new_name) ;; ret false)
         is_CalledProcessError
         (fun e =>
            logger ERROR (WithExn "Failed to convert audio: " e) ;;
            show_notification os "Recording stopped"
                              "Failed to convert audio" ;;
            clean_session ;;
            ret true) ;;
     if returned : bool then ret tt
     else
       show_notification os "Recording stopped"
                         ("Audio saved to " ++ Path.to_string new_name) ;;
       clean_session) s = (Ok tt, s') /\
    trace s' =
      (trace s ++
       Ran ["ffmpeg"; "-f"; "s16le"; "-ar"; "48000"; "-ac"; "2"; "-i";
            Path.to_string (RAW_FILE_NAME os); Path.to_string new_name] rc ::
       (if rc =? 0 then
          [Notify "Recording stopped"
                  ("Audio saved to " ++ Path.to_string new_name)]
        else
          [Log ERROR (WithExn "Failed to convert audio: "
                              (CalledProcessError rc));
           Notify "Recording stopped" "Failed to convert audio"]))%list.
Proof.
  intros Hff Hnotify Hraw Hinfo.
  unfold bind at 1. unfold try_except. unfold bind at 1.
  rewrite (convert_audio_path os new_name s rc Hff).
  destruct (rc =? 0).
  - unfold ret at 1. cbv beta iota.
    unfold bind at 1. unfold show_notification. rewrite Hnotify.
    unfold modify at 1. cbv beta iota.
    erewrite clean_session_both by (cbn; eassumption).
    eexists. split; [reflexivity |]. cbn.
    rewrite <- !app_assoc. reflexivity.
  - cbv beta iota. cbn [is_CalledProcessError].
    unfold logger. rewrite bind_modify.
    unfold bind at 1. unfold show_notification. rewrite Hnotify.
    unfold modify at 1. cbv beta iota.
    unfold bind at 1.
    erewrite clean_session_both by (cbn; eassumption).
    unfold ret at 1. cbv beta iota.
    eexists. split; [reflexivity |]. cbn.
    rewrite <- !app_assoc. reflexivity.
Qed.

Lemma stop_branch_trace os pid p s b items fv dv f d rc :
  raw_file s = Some b ->
  info_file s = Some (Object items) ->
  last_binding (fun v => v) "file_name" items = Some fv ->
  as_path fv = Some f ->
  last_binding (fun v => v) "destination" items = Some dv ->
  as_path dv = Some d ->
  Str.to_Z pid = Some p ->
  0 < p <= INT_MAX ->
  has_pid p (procs s) = true ->
  hits_self p (procs s) = false ->
  ffmpeg os = Exits rc ->
  notify_installed os = true ->
  exists s',
    stop_branch os pid s = (Ok tt, s') /\
    raw_file s' = None /\ info_file s' = None /\
    trace s' =
      (trace s ++
       [Signalled p;
        Log INFO (Text ("Recording stopped (PID " ++ Str.of_Z p ++ ")"));
        Ran ["ffmpeg"; "-f"; "s16le"; "-ar"; "48000"; "-ac"; "2"; "-i";
             Path.to_string (RAW_FILE_NAME os);
             Path.to_string (Path.truediv d f)] rc] ++
       (if rc =? 0 then
          [Notify "Recording stopped"
                  ("Audio saved to " ++ Path.to_string (Path.truediv d f))]
        else
          [Log ERROR (WithExn "Failed to convert audio: "
                              (CalledProcessError rc));
           Notify "Recording stopped" "Failed to convert audio"]))%list.
Proof.
  intros Hraw Hinfo Hfv Hf Hdv Hd Hpid Hp Hlive Hother Hff Hnotify.
  unfold stop_branch. unfold bind at 1.
  rewrite (parse_args_object os _ false s items) by (auto; reflexivity).
  cbv beta iota. rewrite Hpid, bind_ret. unfold bind at 1.
  rewrite stop_recording_positive by assumption.
  cbn [procs with_PID with_args]. rewrite Hlive, Hother. cbv beta iota.
  rewrite bind_get. cbn [args emit with_PID with_args].
  set (a := overlay (fun v => v) expected_keys items (args s)).
  assert (Hdest : destination a = dv).
  { change (getattr a "destination" = dv). subst a.
    rewrite getattr_overlay, Hdv; reflexivity. }
  assert (Hname : file_name a = fv).
  { change (getattr a "file_name" = fv). subst a.
    rewrite getattr_overlay, Hfv; reflexivity. }
  rewrite Hdest, Hname, Hd, Hf, bind_ret.
  match goal with
  | |- exists s', ?tail ?x = _ /\ _ =>
      destruct (stop_tail_trace os (Path.truediv d f) rc x b (Object items)
                  Hff Hnotify Hraw Hinfo)
      as (s' & Hrun & Htrace)
  end.
  exists s'. split; [exact Hrun |].
  assert (Hfiles : raw_file s' = None /\ info_file s' = None).
  { match type of Hrun with
    | ?tail ?x = _ =>
        destruct (stop_tail_effect os (Path.truediv d f) rc x Hff Hnotify)
        as (s'' & Hrun' & Hraw' & Hinfo' & _)
    end.
    rewrite Hrun in Hrun'. injection Hrun' as <-.
    split; [exact Hraw' |]. apply Hinfo'. cbn. rewrite Hraw. discriminate. }
  destruct Hfiles as [Hraw' Hinfo'].
  repeat split; try assumption.
  rewrite Htrace. cbn [trace emit]. rewrite <- !app_assoc. reflexivity.
Qed.

(** X16: what a stop shows: with the process of the probed identifier alive
    and not the script itself, both session files present and the record
    naming file and destination, the effects of the invocation are, in this
    order, the signal to the probed identifier (not to the one stored in the
    record), the [INFO] line, the encoder run, and a notification that reads
    "Audio saved to ..." when the encoder exits with status 0 and "Failed to
    convert audio", after an [ERROR] line, when it does not. *)
Theorem stop_effects_in_order os c b items ps p fv dv f d rc :
  last_binding (fun v => v) "file_name" items = Some fv ->
  as_path fv = Some f ->
  last_binding (fun v => v) "destination" items = Some dv ->
  as_path dv = Some d ->
  Str.to_Z (probe ps) = Some p ->
  0 < p <= INT_MAX ->
  has_pid p ps = true ->
  hits_self p ps = false ->
  ffmpeg os = Exits rc ->
  notify_installed os = true ->
  let r := main os (boot c (Some b) (Some (Object items)) ps) in
  fst r = Ok tt /\
  trace (snd r) =
    ([Signalled p;
      Log INFO (Text ("Recording stopped (PID " ++ Str.of_Z p ++ ")"));
      Ran ["ffmpeg"; "-f"; "s16le"; "-ar"; "48000"; "-ac"; "2"; "-i";
           Path.to_string (RAW_FILE_NAME os);
           Path.to_string (Path.truediv d f)] rc] ++
     (if rc =? 0 then
        [Notify "Recording stopped"
                ("Audio saved to " ++ Path.to_string (Path.truediv d f))]
      else
        [Log ERROR (WithExn "Failed to convert audio: "
                            (CalledProcessError rc));
         Notify "Recording stopped" "Failed to convert audio"]))%list.
Proof.
  intros Hfv Hf Hdv Hd Hpid Hp Hlive Hother Hff Hnotify. cbv zeta.
  assert (Hprobe : probe ps <> "").
  { intros Hempty. rewrite Hempty in Hpid. discriminate Hpid. }
  rewrite main_run.
  destruct (first_pass_object os c (Some b) items ps)
    as (s1 & -> & Hraw1 & Hinfo1 & Hprocs1 & Htrace1).
  rewrite Hprocs1.
  destruct (String.eqb_spec (probe ps) ""); [contradiction |].
  destruct (stop_branch_trace os (probe ps) p s1 b items fv dv f d rc)
    as (s' & Hrun & _ & _ & Htrace); try assumption;
    try (rewrite Hprocs1; assumption).
  rewrite Hrun. cbn [fst snd]. split; [reflexivity |].
  rewrite Htrace, Htrace1. reflexivity.
Qed.

Lemma stop_effects_in_order_witness :
  let r := main failing_encoder
                (boot no_flags (Some []) (Some (Object record_b))
                      [editor_77; parec_4242]) in
  fst r = Ok tt /\
  trace (snd r) =
    ([Signalled 4242;
      Log INFO (Text ("Recording stopped (PID " ++ Str.of_Z 4242 ++ ")"));
      Ran ["ffmpeg"; "-f"; "s16le"; "-ar"; "48000"; "-ac"; "2"; "-i";
           Path.to_string (RAW_FILE_NAME failing_encoder);
           Path.to_string (Path.truediv (Path.of_string "/home/u")
                                        (Path.of_string "b.mp3"))] 1] ++
     (if 1 =? 0 then
        [Notify "Recording stopped"
                ("Audio saved to " ++
                 Path.to_string (Path.truediv (Path.of_string "/home/u")
                                              (Path.of_string "b.mp3")))]
      else
        [Log ERROR (WithExn "Failed to convert audio: "
                            (CalledProcessError 1));
         Notify "Recording stopped" "Failed to convert audio"]))%list.
Proof.
  apply (stop_effects_in_order
           failing_encoder no_flags [] record_b [editor_77; parec_4242] 4242
           (VStr "b.mp3") (VStr "/home/u")
           (Path.of_string "b.mp3") (Path.of_string "/home/u") 1);
    try reflexivity.
  unfold INT_MAX. lia.
Defined.

(** ** Start, then stop *)

Lemma probe_only_match ps q :
  filter matches ps = [q] -> probe ps = Str.of_Z (proc_pid q).
Proof.
  intros Hone. rewrite probe_filter, Hone. reflexivity.
Qed.

Lemma has_pid_of_match ps q :
  filter matches ps = [q] -> has_pid (proc_pid q) ps = true.
Proof.
  intros Hone. unfold has_pid. apply existsb_exists. exists q.
  split; [| apply Z.eqb_refl].
  assert (Hin : In q (filter matches ps)) by (rewrite Hone; left; reflexivity).
  apply filter_In in Hin. exact (proj1 Hin).
Qed.

(** X12: the toggle: an invocation that starts a session, followed by an
    invocation that finds the launched process as the only one [pgrep]
    reports (so its own command line does not contain [parec]), signals that
    process, runs the encoder once on the destination and file name the
    first invocation resolved, whatever flags the second one passes and
    whatever status the encoder exits with, and leaves no session file
    behind. *)
Theorem start_then_stop_returns_to_idle os c c' raw ps ps2 dev rc :
  cli_env c = false ->
  cli_input c = Some dev ->
  probe ps = "" ->
  parec_installed os = true ->
  notify_installed os = true ->
  ffmpeg os = Exits rc ->
  0 < fresh_pid os <= INT_MAX ->
  filter matches ps2 = [capture_process os dev] ->
  hits_self (fresh_pid os) ps2 = false ->
  let a := fill_defaults os (parser_parse_args c) in
  let s1 := snd (main os (boot c raw None ps)) in
  let r2 := main os (boot c' (raw_file s1) (info_file s1) ps2) in
  fst r2 = Ok tt /\
  raw_file (snd r2) = None /\ info_file (snd r2) = None /\
  exists f,
    file_name a = VStr f /\
    trace (snd r2) =
      ([Signalled (fresh_pid os);
        Log INFO
            (Text ("Recording stopped (PID " ++ Str.of_Z (fresh_pid os) ++ ")"));
        Ran ["ffmpeg"; "-f"; "s16le"; "-ar"; "48000"; "-ac"; "2"; "-i";
             Path.to_string (RAW_FILE_NAME os);
             Path.to_string
               (Path.truediv (Path.of_string (py_str (destination a)))
                             (Path.of_string f))] rc] ++
       (if rc =? 0 then
          [Notify "Recording stopped"
                  ("Audio saved to " ++
                   Path.to_string
                     (Path.truediv (Path.of_string (py_str (destination a)))
                                   (Path.of_string f)))]
        else
          [Log ERROR (WithExn "Failed to convert audio: "
                              (CalledProcessError rc));
           Notify "Recording stopped" "Failed to convert audio"]))%list.
Proof.
  intros Henv Hdev Hidle Hparec Hnotify Hff Hpid Hone Hother a s1 r2.
  destruct (fill_defaults_cli os c) as (Hname & Hformat & [f Hf] & _).
  fold a in Hname, Hformat, Hf.
  assert (Hstart :
            main os (boot c raw None ps) =
            (Ok tt,
             with_info (Some (Object (saved_record (fresh_pid os) a)))
               (emit (Notify "Recording Started" "Capturing audio...")
                  (emit (Spawned (fresh_pid os) (capture_argv dev))
                     (with_procs (ps ++ [capture_process os dev])
                        (with_raw (Some [])
                           (with_args (fun _ => a)
                                      (boot c raw None ps)))))))).
  { rewrite main_run.
    rewrite parse_args_absent
      by (try reflexivity; simpl; rewrite Henv; reflexivity).
    cbn [procs boot]. rewrite Hidle. cbn [String.eqb].
    rewrite (start_branch_run os _ dev); try assumption.
    - reflexivity.
    - cbn [args boot input parser_parse_args]. rewrite Hdev. reflexivity. }
  subst r2 s1. rewrite Hstart.
  cbn [snd raw_file info_file with_info emit with_procs with_raw with_args
       boot].
  assert (Hprobe : probe ps2 = Str.of_Z (fresh_pid os))
    by (rewrite (probe_only_match ps2 _ Hone); reflexivity).
  assert (Hlive : has_pid (fresh_pid os) ps2 = true)
    by (exact (has_pid_of_match ps2 _ Hone)).
  rewrite main_run.
  destruct (first_pass_object os c' (Some []) (saved_record (fresh_pid os) a)
              ps2)
    as (t1 & -> & Hraw1 & Hinfo1 & Hprocs1 & Htrace1).
  rewrite Hprocs1, Hprobe.
  destruct (String.eqb_spec (Str.of_Z (fresh_pid os)) "") as [Hempty | _];
    [exfalso; exact (of_Z_nonempty _ Hempty) |].
  destruct (stop_branch_trace
              os (Str.of_Z (fresh_pid os)) (fresh_pid os) t1 []
              (saved_record (fresh_pid os) a)
              (file_name a) (VStr (py_str (destination a)))
              (Path.of_string f) (Path.of_string (py_str (destination a))) rc)
    as (t' & Hrun & Hraw & Hinfo & Htrace);
    try assumption; try reflexivity;
    try (rewrite Hprocs1; assumption).
  - rewrite Hf. reflexivity.
  - apply to_Z_of_Z. lia.
  - rewrite Hrun. cbn [fst snd].
    repeat split; try assumption.
    exists f. split; [exact Hf |].
    rewrite Htrace, Htrace1. reflexivity.
Qed.

Lemma start_then_stop_returns_to_idle_witness :
  let a := fill_defaults studio (parser_parse_args flags_wav) in
  let s1 := snd (main studio (boot flags_wav None None [editor_77])) in
  let r2 := main studio
                 (boot flags_a (raw_file s1) (info_file s1)
                       [editor_77; capture_process studio "mic0"]) in
  fst r2 = Ok tt /\
  raw_file (snd r2) = None /\ info_file (snd r2) = None /\
  exists f,
    file_name a = VStr f /\
    trace (snd r2) =
      ([Signalled (fresh_pid studio);
        Log INFO
            (Text ("Recording stopped (PID " ++
                   Str.of_Z (fresh_pid studio) ++ ")"));
        Ran ["ffmpeg"; "-f"; "s16le"; "-ar"; "48000"; "-ac"; "2"; "-i";
             Path.to_string (RAW_FILE_NAME studio);
             Path.to_string
               (Path.truediv (Path.of_string (py_str (destination a)))
                             (Path.of_string f))] 0] ++
       (if 0 =? 0 then
          [Notify "Recording stopped"
                  ("Audio saved to " ++
                   Path.to_string
                     (Path.truediv (Path.of_string (py_str (destination a)))
                                   (Path.of_string f)))]
        else
          [Log ERROR (WithExn "Failed to convert audio: "
                              (CalledProcessError 0));
           Notify "Recording stopped" "Failed to convert audio"]))%list.
Proof.
  apply (start_then_stop_returns_to_idle
           studio flags_wav flags_a None [editor_77]
           [editor_77; capture_process studio "mic0"] "mic0" 0);
    try reflexivity.
  unfold INT_MAX. simpl. lia.
Defined.

(** ** [stop_recording]: a live process, the script itself, an identifier out of range *)

(** X13: [stop_recording] on the identifier of a process in the table.  When
    that process is not the script itself, the call returns normally, having
    recorded the signal and one [INFO] line and changed nothing else (when
    the signalled process exits is not the script's business).  When it is
    the script itself, the signal ends the script inside [os.kill]: nothing
    is logged and the call does not return. *)
Theorem stop_recording_live_process p s :
  0 < p <= INT_MAX ->
  has_pid p (procs s) = true ->
  stop_recording p s =
  if hits_self p (procs s) then (Raise Terminated, emit (Signalled p) s)
  else
    (Ok tt,
     emit (Log INFO (Text ("Recording stopped (PID " ++ Str.of_Z p ++ ")")))
          (emit (Signalled p) s)).
Proof.
  intros Hp Hlive. rewrite stop_recording_positive by assumption.
  rewrite Hlive. reflexivity.
Qed.

Lemma stop_recording_live_process_witness :
  stop_recording 4242
    (boot no_flags (Some []) None [script_5151; parec_4242]) =
  (Ok tt,
   emit (Log INFO (Text "Recording stopped (PID 4242)"))
        (emit (Signalled 4242)
              (boot no_flags (Some []) None [script_5151; parec_4242]))) /\
  stop_recording 5151
    (boot no_flags (Some []) None [script_5151; parec_4242]) =
  (Raise Terminated,
   emit (Signalled 5151)
        (boot no_flags (Some []) None [script_5151; parec_4242])).
Proof.
  split.
  - apply (stop_recording_live_process
             4242 (boot no_flags (Some []) None [script_5151; parec_4242])).
    + unfold INT_MAX. lia.
    + reflexivity.
  - apply (stop_recording_live_process
             5151 (boot no_flags (Some []) None [script_5151; parec_4242])).
    + unfold INT_MAX. lia.
    + reflexivity.
Defined.

(** X14: an identifier that does not fit a C [int]: [os.kill] raises
    [OverflowError], which [stop_recording] does not catch.  When the probe
    reads as such a number (the identifiers of several capture processes
    glued together), a stop-path invocation ends in that error with nothing
    signalled, converted or removed. *)
Theorem stop_with_identifier_out_of_range os c raw items ps p :
  Str.to_Z (probe ps) = Some p ->
  INT_MAX < p ->
  let r := main os (boot c raw (Some (Object items)) ps) in
  fst r = Raise OverflowError /\
  raw_file (snd r) = raw /\ info_file (snd r) = Some (Object items) /\
  procs (snd r) = ps /\ trace (snd r) = [].
Proof.
  intros Hpid Hbig. cbv zeta.
  assert (Hprobe : probe ps <> "").
  { intros Hempty. rewrite Hempty in Hpid. discriminate Hpid. }
  assert (Hkill : forall s, stop_recording p s = (Raise OverflowError, s)).
  { intros s.
    unfold stop_recording, os_kill, try_except, bind. cbv beta iota.
    replace ((p <? INT_MIN) || (INT_MAX <? p))%bool with true
      by (symmetry; apply orb_true_intro; right; apply Z.ltb_lt; exact Hbig).
    reflexivity. }
  assert (Hrun :
            exists s',
              main os (boot c raw (Some (Object items)) ps) =
              (Raise OverflowError, s') /\
              raw_file s' = raw /\ info_file s' = Some (Object items) /\
              procs s' = ps /\ trace s' = []).
  { rewrite main_run.
    pose proof (parse_args_frame os ".env" true
                  (boot c raw (Some (Object items)) ps)) as Hframe.
    assert (Hfirst : fst (parse_args os ".env" true
                            (boot c raw (Some (Object items)) ps)) = Ok tt).
    { destruct (cli_env c) eqn:Henv.
      - rewrite parse_args_dotenv by (simpl; exact Henv). reflexivity.
      - rewrite (parse_args_object _ _ true _ items)
          by (try reflexivity; simpl; rewrite Henv; reflexivity).
        reflexivity. }
    destruct (parse_args os ".env" true (boot c raw (Some (Object items)) ps))
      as [[[] | e] s1]; [| discriminate Hfirst].
    cbn [snd boot raw_file info_file procs trace] in Hframe.
    destruct Hframe as (Hraw1 & Hinfo1 & Hprocs1 & Htrace1).
    rewrite Hprocs1.
    destruct (String.eqb_spec (probe ps) ""); [contradiction |].
    unfold stop_branch. unfold bind at 1.
    rewrite (parse_args_object _ _ false s1 items) by (auto; reflexivity).
    cbv beta iota. rewrite Hpid, bind_ret. unfold bind at 1.
    rewrite Hkill. eexists. split; [reflexivity |].
    cbn [raw_file info_file procs trace with_PID with_args].
    repeat split; assumption. }
  destruct Hrun as (s' & -> & H). exact (conj eq_refl H).
Qed.

Lemma stop_with_identifier_out_of_range_witness :
  let ps := [parec_30000; parec_40000] in
  let r := main studio (boot no_flags (Some []) (Some (Object record_b)) ps) in
  fst r = Raise OverflowError /\
  raw_file (snd r) = Some [] /\ info_file (snd r) = Some (Object record_b) /\
  procs (snd r) = ps /\ trace (snd r) = [].
Proof.
  apply (stop_with_identifier_out_of_range
           studio no_flags (Some []) record_b [parec_30000; parec_40000]
           3000040000).
  - reflexivity.
  - unfold INT_MAX. lia.
Defined.

Lemma hits_self_has_pid p ps :
  0 < p -> hits_self p ps = true -> has_pid p ps = true.
Proof.
  intros Hpos Hself. destruct (has_pid p ps) eqn:Hlive; [reflexivity |].
  unfold hits_self in Hself. rewrite addressed_absent in Hself by assumption.
  discriminate Hself.
Qed.

Lemma parse_args_readable os name is_env s :
  match info_file s with
  | None | Some (Object _) => True
  | _ => False
  end ->
  fst (parse_args os name is_env s) = Ok tt.
Proof.
  intros Hreadable.
  destruct ((is_env && truthy (env (args s)))%bool) eqn:Hsel.
  - apply andb_prop in Hsel as [-> Henv].
    rewrite parse_args_dotenv by assumption. reflexivity.
  - destruct (info_file s) as [[| items | b] |] eqn:Hinfo;
      try contradiction.
    + rewrite (parse_args_object os name is_env s items) by assumption.
      reflexivity.
    + rewrite parse_args_absent by assumption. reflexivity.
Qed.

(** X17: when the identifier read off the probe is the script's own (the
    only process [pgrep -f parec] reports is the script, whose command line
    contains [parec]), [main] takes the stop branch and sends [SIGTERM] to
    itself: the invocation ends inside [os.kill] with nothing logged, no
    encoder run and both session files as they were. *)
Theorem stop_signals_the_script_itself os c raw info ps p :
  match info with
  | None | Some (Object _) => True
  | _ => False
  end ->
  Str.to_Z (probe ps) = Some p ->
  0 < p <= INT_MAX ->
  hits_self p ps = true ->
  let r := main os (boot c raw info ps) in
  fst r = Raise Terminated /\
  trace (snd r) = [Signalled p] /\
  raw_file (snd r) = raw /\ info_file (snd r) = info /\ procs (snd r) = ps.
Proof.
  intros Hreadable Hpid Hp Hself. cbv zeta.
  assert (Hprobe : probe ps <> "").
  { intros Hempty. rewrite Hempty in Hpid. discriminate Hpid. }
  assert (Hrun :
            exists s',
              main os (boot c raw info ps) = (Raise Terminated, s') /\
              trace s' = [Signalled p] /\
              raw_file s' = raw /\ info_file s' = info /\ procs s' = ps).
  { rewrite main_run.
    pose proof (parse_args_frame os ".env" true (boot c raw info ps))
      as Hframe.
    pose proof (parse_args_readable os ".env" true (boot c raw info ps)
                  Hreadable) as Hfirst.
    destruct (parse_args os ".env" true (boot c raw info ps))
      as [[[] | e] s1]; [| discriminate Hfirst].
    cbn [snd boot raw_file info_file procs trace] in Hframe.
    destruct Hframe as (Hraw1 & Hinfo1 & Hprocs1 & Htrace1).
    rewrite Hprocs1.
    destruct (String.eqb_spec (probe ps) ""); [contradiction |].
    unfold stop_branch. unfold bind at 1.
    pose proof (parse_args_frame os (Path.to_string (INFO_FILE os)) false s1)
      as Hframe2.
    assert (Hsecond :
              fst (parse_args os (Path.to_string (INFO_FILE os)) false s1) =
              Ok tt)
      by (apply parse_args_readable; rewrite Hinfo1; exact Hreadable).
    destruct (parse_args os (Path.to_string (INFO_FILE os)) false s1)
      as [[[] | e] s2]; [| discriminate Hsecond].
    cbn [snd] in Hframe2.
    destruct Hframe2 as (Hraw2 & Hinfo2 & Hprocs2 & Htrace2).
    cbv beta iota. rewrite Hpid, bind_ret. unfold bind at 1.
    rewrite stop_recording_positive by assumption.
    rewrite Hprocs2, Hprocs1.
    rewrite (hits_self_has_pid p ps) by (try assumption; lia).
    rewrite Hself. eexists. split; [reflexivity |].
    cbn [trace raw_file info_file procs emit].
    rewrite Htrace2, Htrace1, Hraw2, Hraw1, Hinfo2, Hinfo1, Hprocs2, Hprocs1.
    repeat split. }
  destruct Hrun as (s' & -> & H). exact (conj eq_refl H).
Qed.

Lemma stop_signals_the_script_itself_witness :
  let r := main studio (boot flags_parec None None [script_5151]) in
  fst r = Raise Terminated /\
  trace (snd r) = [Signalled 5151] /\
  raw_file (snd r) = None /\ info_file (snd r) = None /\
  procs (snd r) = [script_5151].
Proof.
  apply (stop_signals_the_script_itself
           studio flags_parec None None [script_5151] 5151).
  - exact I.
  - reflexivity.
  - unfold INT_MAX. lia.
  - reflexivity.
Defined.

(** ** [parse_args]: what a failure leaves behind *)

(** X15: [parse_args] changes nothing but the globals [args] and [PID]; when it
    raises, which it does only on a session record that does not parse
    ([JSONDecodeError]) or is not an object ([AttributeError]), the state is
    exactly as before: no part of a record is merged before the failure. *)
Theorem parse_args_failure_changes_nothing os name is_env s :
  let r := parse_args os name is_env s in
  raw_file (snd r) = raw_file s /\ info_file (snd r) = info_file s /\
  procs (snd r) = procs s /\ trace (snd r) = trace s /\
  forall e,
    fst r = Raise e ->
    snd r = s /\
    ((e = JSONDecodeError /\ info_file s = Some Garbled) \/
     (e = AttributeError /\ info_file s = Some (NonObject true))).
Proof.
  cbv zeta.
  destruct (parse_args_frame os name is_env s) as (Hr & Hi & Hp & Ht).
  repeat split; try assumption.
  - destruct ((is_env && truthy (env (args s)))%bool) eqn:Hsel.
    + apply andb_prop in Hsel as [-> Henv].
      rewrite parse_args_dotenv in H by assumption. discriminate H.
    + destruct (info_file s) as [[| items | b] |] eqn:Hinfo.
      * rewrite parse_args_garbled by assumption. reflexivity.
      * rewrite (parse_args_object os name is_env s items) in H
          by assumption.
        discriminate H.
      * rewrite (parse_args_nonobject os name is_env s b) by assumption.
        reflexivity.
      * rewrite parse_args_absent in H by assumption. discriminate H.
  - destruct ((is_env && truthy (env (args s)))%bool) eqn:Hsel.
    + apply andb_prop in Hsel as [-> Henv].
      rewrite parse_args_dotenv in H by assumption. discriminate H.
    + destruct (info_file s) as [[| items | b] |] eqn:Hinfo.
      * rewrite parse_args_garbled in H by assumption.
        injection H as <-. left. split; reflexivity.
      * rewrite (parse_args_object os name is_env s items) in H
          by assumption.
        discriminate H.
      * rewrite (parse_args_nonobject os name is_env s b) in H
          by assumption.
        destruct b; [| discriminate H].
        injection H as <-. right. split; reflexivity.
      * rewrite parse_args_absent in H by assumption. discriminate H.
Qed.
